(** * Event loop management (loop.py): selection and installation of an
      asyncio backend

    A shallow embedding of [loop.py].  The module talks to three libraries
    (platform/sys, asyncio, uvloop) and to the console; their observable
    behaviour is the environment of the program.  Python statements become
    computations in a state-and-exception monad whose state holds

    - the attribute dictionary of the [EventLoopManager] instance ([self]),
    - the environment the libraries answer from,
    - asyncio's process-wide policy slot (the policy object carries the
      current loop),
    - an allocation counter giving every new object its identity,
    - a chronological trace of the external calls the program performs.

    State changes made before an exception is raised stay in place, as in
    Python. *)

From Stdlib Require Import String Ascii List ZArith Bool Arith Lia.
Import ListNotations.
Local Open Scope string_scope.

(** ** Python values used by the module *)

(** Exception classes that can reach the module.  [ModuleNotFoundError] is
    a subclass of [ImportError]; the others are unrelated to it.  The last
    three derive from [BaseException] directly and are not subclasses of
    [Exception]. *)
Inductive exn : Type :=
| ImportError
| ModuleNotFoundError
| AttributeError
| OSError
| RuntimeError
| SyntaxError
| KeyboardInterrupt
| CancelledError
| SystemExit (code : Z).

(** [isinstance(e, ImportError)], the test made by [except ImportError]. *)
Definition isinstance_ImportError (e : exn) : bool :=
  match e with
  | ImportError | ModuleNotFoundError => true
  | _ => false
  end.

(** [isinstance(e, Exception)], the test made by [except Exception]. *)
Definition isinstance_Exception (e : exn) : bool :=
  match e with
  | KeyboardInterrupt | CancelledError | SystemExit _ => false
  | _ => true
  end.

(** [str.lower] on ASCII text, which is what [platform.system()] returns
    (the system name of [uname]): the letters A-Z are mapped to a-z and
    every other byte is kept.  Names with letters outside ASCII are not
    covered by this function. *)
Definition lower_ascii (c : ascii) : ascii :=
  let n := nat_of_ascii c in
  if ((65 <=? n)%nat && (n <=? 90)%nat)%bool then ascii_of_nat (n + 32) else c.

Fixpoint lower (s : string) : string :=
  match s with
  | EmptyString => EmptyString
  | String c r => String (lower_ascii c) (lower r)
  end.

(** Lexicographic [>=] on tuples of integers: the first differing position
    decides, and a tuple that extends the other is the greater one. *)
Fixpoint tuple_ge (a b : list Z) : bool :=
  match a, b with
  | _, [] => true
  | [], _ :: _ => false
  | x :: a', y :: b' => if (x =? y)%Z then tuple_ge a' b' else (y <? x)%Z
  end.

(** [sys.version_info]: (major, minor, micro, releaselevel, serial). *)
Record version_info : Type := {
  major : Z;
  minor : Z;
  micro : Z;
  releaselevel : string;
  serial : Z
}.

(** The integer prefix of the tuple.  A comparison with a two-element tuple
    is settled by [major], [minor] and the lengths, so [releaselevel] and
    [serial] are never inspected. *)
Definition version_tuple (v : version_info) : list Z :=
  [major v; minor v; micro v].

(** Values stored in the dictionary returned by [get_info]. *)
Inductive pyvalue : Type :=
| PyStr (s : string)
| PyBool (b : bool).

Definition dict : Type := list (string * pyvalue).

Fixpoint dict_get (k : string) (d : dict) : option pyvalue :=
  match d with
  | [] => None
  | (k', v) :: d' => if String.eqb k k' then Some v else dict_get k d'
  end.

(** ** asyncio and uvloop objects *)

Inductive PolicyClass : Type :=
| uvloop_EventLoopPolicy_cls
| WindowsProactorEventLoopPolicy_cls
| DefaultEventLoopPolicy_cls.

Inductive LoopClass : Type :=
| uvloop_Loop
| ProactorEventLoop
| DefaultEventLoop.

(** The [_loop_factory] of each policy class. *)
Definition _loop_factory (c : PolicyClass) : LoopClass :=
  match c with
  | uvloop_EventLoopPolicy_cls => uvloop_Loop
  | WindowsProactorEventLoopPolicy_cls => ProactorEventLoop
  | DefaultEventLoopPolicy_cls => DefaultEventLoop
  end.

Record Loop : Type := {
  loop_id : nat;
  loop_class : LoopClass
}.

(** A policy object; [policy_loop] is the loop that [set_event_loop] stored
    in it, the one [asyncio.get_event_loop()] hands out. *)
Record Policy : Type := {
  policy_id : nat;
  policy_class : PolicyClass;
  policy_loop : option Loop
}.

(** ** The factory classes of the module *)

Inductive FactoryClass : Type :=
| UvloopFactory_cls
| WindowsLoopFactory_cls
| DefaultLoopFactory_cls.

(** [cls.__name__] *)
Definition __name__ (c : FactoryClass) : string :=
  match c with
  | UvloopFactory_cls => "UvloopFactory"
  | WindowsLoopFactory_cls => "WindowsLoopFactory"
  | DefaultLoopFactory_cls => "DefaultLoopFactory"
  end.

(** A factory instance: its identity and its class (factories have no
    attributes). *)
Record LoopFactory : Type := {
  factory_id : nat;
  factory_class : FactoryClass
}.

(** ** Environment, trace and program state *)

(** What the libraries answer.  [import_uvloop_outcome] is the outcome of
    executing the statement [import uvloop]: [None] when the name gets
    bound, [Some e] when the statement raises [e].  [loop_ctor_outcome]
    says whether constructing a loop of a class raises. *)
Record Env : Type := {
  platform_system : string;
  platform_python_version : string;
  sys_version_info : version_info;
  import_uvloop_outcome : option exn;
  loop_ctor_outcome : LoopClass -> option exn
}.

(** External calls, in the order the program performs them. *)
Inductive Event : Type :=
| EvImportUvloop
| EvSetEventLoopPolicy (p : Policy)
| EvNewEventLoop (l : Loop)
| EvSetEventLoop (l : Loop)
| EvPrint (line : string).

Record State : Type := {
  self_system : option string;
  self_factory : option LoopFactory;
  env : Env;
  _event_loop_policy : option Policy;
  next_id : nat;
  trace : list Event
}.

Definition set_self_system (v : string) (s : State) : State :=
  {| self_system := Some v; self_factory := self_factory s; env := env s;
     _event_loop_policy := _event_loop_policy s; next_id := next_id s;
     trace := trace s |}.

Definition set_self_factory (f : LoopFactory) (s : State) : State :=
  {| self_system := self_system s; self_factory := Some f; env := env s;
     _event_loop_policy := _event_loop_policy s; next_id := next_id s;
     trace := trace s |}.

Definition set_env (e : Env) (s : State) : State :=
  {| self_system := self_system s; self_factory := self_factory s; env := e;
     _event_loop_policy := _event_loop_policy s; next_id := next_id s;
     trace := trace s |}.

Definition set_policy_slot (p : Policy) (s : State) : State :=
  {| self_system := self_system s; self_factory := self_factory s;
     env := env s; _event_loop_policy := Some p; next_id := next_id s;
     trace := trace s |}.

Definition bump_next_id (s : State) : State :=
  {| self_system := self_system s; self_factory := self_factory s;
     env := env s; _event_loop_policy := _event_loop_policy s;
     next_id := S (next_id s); trace := trace s |}.

Definition log (ev : Event) (s : State) : State :=
  {| self_system := self_system s; self_factory := self_factory s;
     env := env s; _event_loop_policy := _event_loop_policy s;
     next_id := next_id s; trace := trace s ++ [ev] |}.

(** The process-wide default loop: the loop held by the installed policy. *)
Definition default_event_loop (s : State) : option Loop :=
  match _event_loop_policy s with
  | Some p => policy_loop p
  | None => None
  end.

(** The lines written to standard output, oldest first. *)
Fixpoint printed (t : list Event) : list string :=
  match t with
  | [] => []
  | EvPrint line :: t' => line :: printed t'
  | _ :: t' => printed t'
  end.

(** Number of times [import uvloop] was executed. *)
Fixpoint imports (t : list Event) : nat :=
  match t with
  | [] => 0
  | EvImportUvloop :: t' => S (imports t')
  | _ :: t' => imports t'
  end.

(** ** The monad of statements *)

Inductive result (A : Type) : Type :=
| Return (a : A)
| Raise (e : exn).
Arguments Return {A} a.
Arguments Raise {A} e.

Definition M (A : Type) : Type := State -> result A * State.

Definition ret {A} (a : A) : M A := fun s => (Return a, s).

Definition raise {A} (e : exn) : M A := fun s => (Raise e, s).

Definition bind {A B} (c : M A) (k : A -> M B) : M B :=
  fun s =>
    match c s with
    | (Return a, s') => k a s'
    | (Raise e, s') => (Raise e, s')
    end.

Notation "x <- c ;; k" := (bind c (fun x => k))
  (at level 61, c at next level, right associativity).
Notation "c ;; k" := (bind c (fun _ => k))
  (at level 61, right associativity).

(** [try: body except ImportError: handler] *)
Definition try_except_ImportError {A} (body handler : M A) : M A :=
  fun s =>
    match body s with
    | (Return a, s') => (Return a, s')
    | (Raise e, s') =>
        if isinstance_ImportError e then handler s' else (Raise e, s')
    end.

(** ** Library calls *)

Definition print (line : string) : M unit :=
  fun s => (Return tt, log (EvPrint line) s).

Definition platform_system_call : M string :=
  fun s => (Return (platform_system (env s)), s).

Definition platform_python_version_call : M string :=
  fun s => (Return (platform_python_version (env s)), s).

Definition sys_version_info_get : M version_info :=
  fun s => (Return (sys_version_info (env s)), s).

(** The statement [import uvloop]. *)
Definition import_uvloop : M unit :=
  fun s =>
    match import_uvloop_outcome (env s) with
    | None => (Return tt, log EvImportUvloop s)
    | Some e => (Raise e, log EvImportUvloop s)
    end.

(** Allocation of a new object. *)
Definition alloc : M nat :=
  fun s => (Return (next_id s), bump_next_id s).

(** Instantiating a policy class: a new policy that holds no loop. *)
Definition new_policy (c : PolicyClass) : M Policy :=
  i <- alloc ;;
  ret {| policy_id := i; policy_class := c; policy_loop := None |}.

(** Constructing a loop of a class, which the environment may refuse. *)
Definition new_loop (c : LoopClass) : M Loop :=
  fun s =>
    match loop_ctor_outcome (env s) c with
    | Some e => (Raise e, s)
    | None =>
        let l := {| loop_id := next_id s; loop_class := c |} in
        (Return l, log (EvNewEventLoop l) (bump_next_id s))
    end.

(** [policy.new_event_loop()] *)
Definition Policy_new_event_loop (p : Policy) : M Loop :=
  new_loop (_loop_factory (policy_class p)).

(** [asyncio.get_event_loop_policy()]: the installed policy; when none is
    installed yet, a default policy is created and installed first. *)
Definition asyncio_get_event_loop_policy : M Policy :=
  fun s =>
    match _event_loop_policy s with
    | Some p => (Return p, s)
    | None =>
        match new_policy DefaultEventLoopPolicy_cls s with
        | (Return p, s') => (Return p, set_policy_slot p s')
        | (Raise e, s') => (Raise e, s')
        end
    end.

(** [asyncio.set_event_loop_policy(policy)] *)
Definition asyncio_set_event_loop_policy (p : Policy) : M unit :=
  fun s => (Return tt, log (EvSetEventLoopPolicy p) (set_policy_slot p s)).

(** [asyncio.new_event_loop()] *)
Definition asyncio_new_event_loop : M Loop :=
  p <- asyncio_get_event_loop_policy ;;
  Policy_new_event_loop p.

(** The policy object after [policy.set_event_loop(loop)]. *)
Definition with_loop (p : Policy) (l : Loop) : Policy :=
  {| policy_id := policy_id p; policy_class := policy_class p;
     policy_loop := Some l |}.

(** [asyncio.set_event_loop(loop)]: stored in the installed policy. *)
Definition asyncio_set_event_loop (l : Loop) : M unit :=
  p <- asyncio_get_event_loop_policy ;;
  fun s =>
    (Return tt, log (EvSetEventLoop l) (set_policy_slot (with_loop p l) s)).

Definition asyncio_DefaultEventLoopPolicy : M Policy :=
  new_policy DefaultEventLoopPolicy_cls.

Definition asyncio_WindowsProactorEventLoopPolicy : M Policy :=
  new_policy WindowsProactorEventLoopPolicy_cls.

(** [uvloop.EventLoopPolicy()] and [uvloop.new_event_loop()] *)
Definition uvloop_EventLoopPolicy : M Policy :=
  new_policy uvloop_EventLoopPolicy_cls.

Definition uvloop_new_event_loop : M Loop :=
  new_loop uvloop_Loop.

(** Instantiating one of the factory classes. *)
Definition new_factory (c : FactoryClass) : M LoopFactory :=
  i <- alloc ;;
  ret {| factory_id := i; factory_class := c |}.

(** Reading and writing the attributes of [self]; reading an attribute that
    was never set raises [AttributeError]. *)
Definition getattr_system : M string :=
  fun s =>
    match self_system s with
    | Some v => (Return v, s)
    | None => (Raise AttributeError, s)
    end.

Definition getattr_factory : M LoopFactory :=
  fun s =>
    match self_factory s with
    | Some f => (Return f, s)
    | None => (Raise AttributeError, s)
    end.

Definition setattr_system (v : string) : M unit :=
  fun s => (Return tt, set_self_system v s).

Definition setattr_factory (f : LoopFactory) : M unit :=
  fun s => (Return tt, set_self_factory f s).

(** ** The module *)

Module UvloopFactory.

Definition create_loop : M Loop :=
  import_uvloop ;;
  uvloop_new_event_loop.

Definition get_policy : M Policy :=
  import_uvloop ;;
  uvloop_EventLoopPolicy.

End UvloopFactory.

Module WindowsLoopFactory.

Definition create_loop : M Loop :=
  v <- sys_version_info_get ;;
  if tuple_ge (version_tuple v) [3; 8]%Z then
    p <- asyncio_WindowsProactorEventLoopPolicy ;;
    Policy_new_event_loop p
  else asyncio_new_event_loop.

Definition get_policy : M Policy :=
  v <- sys_version_info_get ;;
  if tuple_ge (version_tuple v) [3; 8]%Z then
    asyncio_WindowsProactorEventLoopPolicy
  else asyncio_DefaultEventLoopPolicy.

End WindowsLoopFactory.

Module DefaultLoopFactory.

Definition create_loop : M Loop := asyncio_new_event_loop.

Definition get_policy : M Policy := asyncio_DefaultEventLoopPolicy.

End DefaultLoopFactory.

(** Method dispatch on the class of the factory instance. *)
Definition LoopFactory_create_loop (f : LoopFactory) : M Loop :=
  match factory_class f with
  | UvloopFactory_cls => UvloopFactory.create_loop
  | WindowsLoopFactory_cls => WindowsLoopFactory.create_loop
  | DefaultLoopFactory_cls => DefaultLoopFactory.create_loop
  end.

Definition LoopFactory_get_policy (f : LoopFactory) : M Policy :=
  match factory_class f with
  | UvloopFactory_cls => UvloopFactory.get_policy
  | WindowsLoopFactory_cls => WindowsLoopFactory.get_policy
  | DefaultLoopFactory_cls => DefaultLoopFactory.get_policy
  end.

Definition advisory : string :=
  "⚠️  uvloop is not available, falling back to default event loop".

Definition confirmation (system : string) (f : LoopFactory) : string :=
  "✅ System: " ++ system ++ ", Using: " ++ __name__ (factory_class f).

Module EventLoopManager.

Definition _get_factory : M LoopFactory :=
  system <- getattr_system ;;
  if String.eqb system "windows" then new_factory WindowsLoopFactory_cls
  else
    try_except_ImportError
      (import_uvloop ;;
       new_factory UvloopFactory_cls)
      (print advisory ;;
       new_factory DefaultLoopFactory_cls).

Definition __init__ : M unit :=
  name <- platform_system_call ;;
  setattr_system (lower name) ;;
  f <- _get_factory ;;
  setattr_factory f.

Definition setup : M Loop :=
  f <- getattr_factory ;;
  policy <- LoopFactory_get_policy f ;;
  asyncio_set_event_loop_policy policy ;;
  f <- getattr_factory ;;
  loop <- LoopFactory_create_loop f ;;
  asyncio_set_event_loop loop ;;
  system <- getattr_system ;;
  f <- getattr_factory ;;
  print (confirmation system f) ;;
  ret loop.

Definition _is_uvloop_available : M bool :=
  try_except_ImportError
    (import_uvloop ;;
     ret true)
    (ret false).

Definition get_info : M dict :=
  system <- getattr_system ;;
  f <- getattr_factory ;;
  available <- _is_uvloop_available ;;
  version <- platform_python_version_call ;;
  ret [ ("system", PyStr system);
        ("factory", PyStr (__name__ (factory_class f)));
        ("uvloop_available", PyBool available);
        ("python_version", PyStr version) ].

End EventLoopManager.

(** ** Client behaviour: any sequence of calls on one instance *)

(** What a client may do with a constructed manager, interleaved with
    changes of the environment (uvloop installed or removed, and so on). *)
Inductive call : Type :=
| call_setup
| call_get_info
| env_change (e : Env).

(** One step; an exception raised by a call is caught by the client, so the
    state reached is kept and the run goes on. *)
Definition step (c : call) (s : State) : State :=
  match c with
  | call_setup => snd (EventLoopManager.setup s)
  | call_get_info => snd (EventLoopManager.get_info s)
  | env_change e => set_env e s
  end.

Fixpoint run (cs : list call) (s : State) : State :=
  match cs with
  | [] => s
  | c :: cs' => run cs' (step c s)
  end.

(** A process in which nothing has happened yet and [self] is a new
    object. *)
Definition fresh_process (e : Env) : State :=
  {| self_system := None; self_factory := None; env := e;
     _event_loop_policy := None; next_id := 0; trace := [] |}.

(** ** Sample environments *)

Definition no_ctor_failure : LoopClass -> option exn := fun _ => None.

Definition py312 : version_info :=
  {| major := 3; minor := 12; micro := 4; releaselevel := "final";
     serial := 0 |}.

Definition py37 : version_info :=
  {| major := 3; minor := 7; micro := 9; releaselevel := "final";
     serial := 0 |}.

Definition mk_env (name : string) (v : version_info) (vs : string)
    (imp : option exn) (ctor : LoopClass -> option exn) : Env :=
  {| platform_system := name; platform_python_version := vs;
     sys_version_info := v; import_uvloop_outcome := imp;
     loop_ctor_outcome := ctor |}.

Definition linux_with_uvloop : Env :=
  mk_env "Linux" py312 "3.12.4" None no_ctor_failure.

Definition linux_without_uvloop : Env :=
  mk_env "Linux" py312 "3.12.4" (Some ModuleNotFoundError) no_ctor_failure.

Definition linux_broken_uvloop : Env :=
  mk_env "Linux" py312 "3.12.4" (Some AttributeError) no_ctor_failure.

Definition windows_with_uvloop : Env :=
  mk_env "Windows" py312 "3.12.4" None no_ctor_failure.

Definition windows_without_uvloop : Env :=
  mk_env "Windows" py312 "3.12.4" (Some ModuleNotFoundError) no_ctor_failure.

Definition windows_py37 : Env :=
  mk_env "Windows" py37 "3.7.9" (Some ModuleNotFoundError) no_ctor_failure.

(** uvloop imports, but its loop cannot be constructed. *)
Definition linux_uvloop_loop_fails : Env :=
  mk_env "Linux" py312 "3.12.4" None
    (fun c => match c with uvloop_Loop => Some OSError | _ => None end).


(** ** Vocabulary of the statements *)

(** The imports a method of factory [f] executes before its library call:
    one for [UvloopFactory], none for the others. *)
Definition method_imports (f : LoopFactory) : list Event :=
  match factory_class f with
  | UvloopFactory_cls => [EvImportUvloop]
  | _ => []
  end.

(** The host runtime is version 3.8 or later. *)
Definition at_least_3_8 (v : version_info) : Prop :=
  (3 < major v \/ (major v = 3 /\ 8 <= minor v))%Z.

(** Both attributes of [self] are set, as after a completed [__init__]. *)
Definition constructed (s : State) (system : string) (f : LoopFactory) : Prop :=
  self_system s = Some system /\ self_factory s = Some f.

(** Whether [import uvloop] currently succeeds. *)
Definition importable (e : Env) : bool :=
  match import_uvloop_outcome e with
  | None => true
  | Some _ => false
  end.

(** The import either succeeds or fails with an [ImportError]. *)
Definition probe_answers (e : Env) : Prop :=
  match import_uvloop_outcome e with
  | None => True
  | Some x => isinstance_ImportError x = true
  end.

(** The state in which [create_loop] runs: the policy has been installed. *)
Definition policy_installed (p : Policy) (s1 : State) : State :=
  log (EvSetEventLoopPolicy p) (set_policy_slot p s1).

(** The state [setup] returns in: loop installed, confirmation printed. *)
Definition setup_done (system : string) (f : LoopFactory) (p : Policy)
    (l : Loop) (s2 : State) : State :=
  log (EvPrint (confirmation system f))
    (log (EvSetEventLoop l) (set_policy_slot (with_loop p l) s2)).

(** The class of the policy a call returned, if it returned one. *)
Definition policy_class_of (r : result Policy * State) : option PolicyClass :=
  match fst r with
  | Return p => Some (policy_class p)
  | Raise _ => None
  end.

(** ** Sample states *)

(** A manager constructed on Linux with uvloop installed. *)
Definition s_linux_uvloop : State :=
  snd (EventLoopManager.__init__ (fresh_process linux_with_uvloop)).

(** The same manager after uvloop has been removed. *)
Definition s_uvloop_removed : State :=
  run [env_change linux_without_uvloop] s_linux_uvloop.

(** The same manager after one [setup], once loops can no longer be
    constructed. *)
Definition s_loop_fails : State :=
  run [call_setup; env_change linux_uvloop_loop_fails] s_linux_uvloop.

(** A manager constructed on Windows. *)
Definition s_windows : State :=
  snd (EventLoopManager.__init__ (fresh_process windows_with_uvloop)).

(** ** Vocabulary for call sequences and outcomes *)

(** Number of [setup] calls, and of [get_info] calls, in a sequence. *)
Fixpoint count_setup (cs : list call) : nat :=
  match cs with
  | [] => 0
  | call_setup :: cs' => S (count_setup cs')
  | _ :: cs' => count_setup cs'
  end.

Fixpoint count_get_info (cs : list call) : nat :=
  match cs with
  | [] => 0
  | call_get_info :: cs' => S (count_get_info cs')
  | _ :: cs' => count_get_info cs'
  end.

(** Number of [setup] calls of the sequence that return, when the sequence
    is run from [s]. *)
Fixpoint successful_setups (cs : list call) (s : State) : nat :=
  match cs with
  | [] => 0
  | c :: cs' =>
      match c, fst (EventLoopManager.setup s) with
      | call_setup, Return _ => S (successful_setups cs' (step c s))
      | _, _ => successful_setups cs' (step c s)
      end
  end.

(** The class of loop that [create_loop] of a factory of class [c] builds
    once that factory's own policy is installed. *)
Definition built_loop_class (c : FactoryClass) (v : version_info) : LoopClass :=
  match c with
  | UvloopFactory_cls => uvloop_Loop
  | WindowsLoopFactory_cls =>
      if tuple_ge (version_tuple v) [3; 8]%Z then ProactorEventLoop
      else DefaultEventLoop
  | DefaultLoopFactory_cls => DefaultEventLoop
  end.

(** The environment lets a factory of class [c] do its work: uvloop can be
    imported if [c] needs it, and the loop class it builds can be
    constructed. *)
Definition backend_usable (e : Env) (c : FactoryClass) : Prop :=
  (c = UvloopFactory_cls -> import_uvloop_outcome e = None) /\
  loop_ctor_outcome e (built_loop_class c (sys_version_info e)) = None.

(** ** The demonstration: [create_demo_task] and [main] *)

(** Formatting done by Python built-ins: [repr] of the dictionary as an
    f-string renders it, and [str] of an exception. *)
Record Builtins : Type := {
  repr_dict : dict -> string;
  str_exn : exn -> string
}.

(** The state of the demonstration: the process, what awaiting
    [asyncio.sleep(1)] does ([None]: the coroutine resumes), and the loops
    on which [close()] has been called, oldest first. *)
Record DemoState : Type := {
  process : State;
  sleep_outcome : option exn;
  closed : list Loop
}.

Definition D (A : Type) : Type := DemoState -> result A * DemoState.

Definition dret {A} (a : A) : D A := fun w => (Return a, w).

Definition draise {A} (e : exn) : D A := fun w => (Raise e, w).

Definition dbind {A B} (c : D A) (k : A -> D B) : D B :=
  fun w =>
    match c w with
    | (Return a, w') => k a w'
    | (Raise e, w') => (Raise e, w')
    end.

(** A statement of the module run inside the demonstration. *)
Definition lift {A} (c : M A) : D A :=
  fun w =>
    let (r, s') := c (process w) in
    (r, {| process := s'; sleep_outcome := sleep_outcome w;
           closed := closed w |}).

Declare Scope demo_scope.
Delimit Scope demo_scope with demo.
Notation "x <- c ;; k" := (dbind c (fun x => k))
  (at level 61, c at next level, right associativity) : demo_scope.
Notation "c ;; k" := (dbind c (fun _ => k))
  (at level 61, right associativity) : demo_scope.

(** [try: body except Exception as e: handler(e)]: an exception that is
    not an instance of [Exception] passes through. *)
Definition try_except_Exception {A} (body : D A) (handler : exn -> D A) : D A :=
  fun w =>
    match body w with
    | (Return a, w') => (Return a, w')
    | (Raise e, w') =>
        if isinstance_Exception e then handler e w' else (Raise e, w')
    end.

(** [try: body finally: cleanup]: the cleanup runs on every exit, and an
    exception of its own replaces the outcome of the body. *)
Definition try_finally {A} (body : D A) (cleanup : D unit) : D A :=
  fun w =>
    match body w with
    | (r, w') =>
        match cleanup w' with
        | (Return _, w'') => (r, w'')
        | (Raise e, w'') => (Raise e, w'')
        end
    end.

(** [await asyncio.sleep(1)] *)
Definition asyncio_sleep : D unit :=
  fun w =>
    match sleep_outcome w with
    | None => (Return tt, w)
    | Some e => (Raise e, w)
    end.

Definition is_closed (l : Loop) (w : DemoState) : bool :=
  existsb (fun c => Nat.eqb (loop_id c) (loop_id l)) (closed w).

(** [loop.run_until_complete(coro)]: a closed loop refuses to run; an open
    one runs the coroutine to its end. *)
Definition Loop_run_until_complete {A} (l : Loop) (coro : D A) : D A :=
  fun w => if is_closed l w then (Raise RuntimeError, w) else coro w.

(** [loop.close()] *)
Definition Loop_close (l : Loop) : D unit :=
  fun w =>
    (Return tt,
     {| process := process w; sleep_outcome := sleep_outcome w;
        closed := closed w ++ [l] |}).

(** [EventLoopManager()]: a new instance, on which [__init__] runs. *)
Definition new_instance (s : State) : State :=
  {| self_system := None; self_factory := None; env := env s;
     _event_loop_policy := _event_loop_policy s; next_id := next_id s;
     trace := trace s |}.

Definition EventLoopManager_new : M unit :=
  fun s => EventLoopManager.__init__ (new_instance s).

Definition line_configuration (b : Builtins) (info : dict) : string :=
  "🔧 Configuration: " ++ repr_dict b info.

Definition line_starting : string := "🚀 Starting asynchronous task...".

Definition line_completed : string :=
  "✅ Asynchronous task completed successfully".

Definition demo_result : string := "Demo task completed successfully".

Definition line_error (b : Builtins) (e : exn) : string :=
  "❌ Error executing demo task: " ++ str_exn b e.

Definition line_result (result : string) : string :=
  "📊 Demo result: " ++ result.

Definition line_failed (b : Builtins) (e : exn) : string :=
  "💥 Demo execution failed: " ++ str_exn b e.

Definition demo_coroutine : D string :=
  (lift (print line_starting) ;;
   asyncio_sleep ;;
   lift (print line_completed) ;;
   dret demo_result)%demo.

Definition create_demo_task (b : Builtins) : D string :=
  (lift EventLoopManager_new ;;
   info <- lift EventLoopManager.get_info ;;
   lift (print (line_configuration b info)) ;;
   loop <- lift EventLoopManager.setup ;;
   try_finally
     (try_except_Exception
        (result <- Loop_run_until_complete loop demo_coroutine ;;
         dret result)
        (fun e =>
           lift (print (line_error b e)) ;;
           draise e))
     (Loop_close loop))%demo.

(** [sys.exit(code)] raises [SystemExit(code)]. *)
Definition sys_exit {A} (code : Z) : D A := draise (SystemExit code).

Definition main (b : Builtins) : D unit :=
  try_except_Exception
    (result <- create_demo_task b ;;
     lift (print (line_result result)))%demo
    (fun e =>
       lift (print (line_failed b e)) ;;
       sys_exit 1)%demo.

(** [main] returned to its caller. *)
Definition main_returns : result unit := Return tt.

(** The class of factory the constructor selects in an environment. *)
Definition selected_class (e : Env) : FactoryClass :=
  if String.eqb (lower (platform_system e)) "windows"
  then WindowsLoopFactory_cls
  else if importable e then UvloopFactory_cls else DefaultLoopFactory_cls.

(** All loops closed so far are objects that already exist. *)
Definition closed_are_old (w : DemoState) : Prop :=
  forall l, In l (closed w) -> loop_id l < next_id (process w).

(** A demonstration started in a new process. *)
Definition fresh_demo (e : Env) (sleep : option exn) : DemoState :=
  {| process := fresh_process e; sleep_outcome := sleep; closed := [] |}.

Definition sample_builtins : Builtins :=
  {| repr_dict := fun _ => "{...}";
     str_exn := fun e =>
       match e with
       | ModuleNotFoundError => "No module named 'uvloop'"
       | _ => "error"
       end |}.

(** The demonstration state with its process replaced, and with one more
    loop closed. *)
Definition with_process (s : State) (w : DemoState) : DemoState :=
  {| process := s; sleep_outcome := sleep_outcome w; closed := closed w |}.

Definition with_closed (s : State) (l : Loop) (w : DemoState) : DemoState :=
  {| process := s; sleep_outcome := sleep_outcome w;
     closed := closed w ++ [l] |}.

(** What happens once [setup] has returned [l] in process state [s]: the
    coroutine is run on [l], and [l] is closed. *)
Definition run_and_close (b : Builtins) (l : Loop) (s : State)
    (w : DemoState) : result string * DemoState :=
  if is_closed l w then
    (Raise RuntimeError,
     with_closed (log (EvPrint (line_error b RuntimeError)) s) l w)
  else
    match sleep_outcome w with
    | Some e =>
        (Raise e,
         with_closed
           (if isinstance_Exception e
            then log (EvPrint (line_error b e)) (log (EvPrint line_starting) s)
            else log (EvPrint line_starting) s)
           l w)
    | None =>
        (Return demo_result,
         with_closed
           (log (EvPrint line_completed) (log (EvPrint line_starting) s))
           l w)
    end.

(** The advisory line the constructor prints in an environment, if any. *)
Definition advisory_lines (e : Env) : list string :=
  if String.eqb (lower (platform_system e)) "windows" then []
  else if importable e then [] else [advisory].

(** The dictionary [get_info] returns right after construction in an
    environment where the import succeeds or fails with [ImportError]. *)
Definition expected_info (e : Env) : dict :=
  [ ("system", PyStr (lower (platform_system e)));
    ("factory", PyStr (__name__ (selected_class e)));
    ("uvloop_available", PyBool (importable e));
    ("python_version", PyStr (platform_python_version e)) ].

(** ** Concrete runs *)

Example lower_Windows : lower "Windows" = "windows".
Proof. reflexivity. Qed.

Example version_gate_samples :
  tuple_ge (version_tuple py312) [3; 8]%Z = true /\
  tuple_ge (version_tuple py37) [3; 8]%Z = false.
Proof. split; reflexivity. Qed.

Example init_linux :
  fst (EventLoopManager.__init__ (fresh_process linux_with_uvloop)) = Return tt.
Proof. reflexivity. Qed.

Example get_info_linux :
  fst (EventLoopManager.get_info s_linux_uvloop) =
    Return [ ("system", PyStr "linux");
             ("factory", PyStr "UvloopFactory");
             ("uvloop_available", PyBool true);
             ("python_version", PyStr "3.12.4") ].
Proof. reflexivity. Qed.

Example setup_linux_trace :
  trace (snd (EventLoopManager.setup s_linux_uvloop)) =
    [ EvImportUvloop;
      EvImportUvloop;
      EvSetEventLoopPolicy
        {| policy_id := 1; policy_class := uvloop_EventLoopPolicy_cls;
           policy_loop := None |};
      EvImportUvloop;
      EvNewEventLoop {| loop_id := 2; loop_class := uvloop_Loop |};
      EvSetEventLoop {| loop_id := 2; loop_class := uvloop_Loop |};
      EvPrint (confirmation "linux"
                 {| factory_id := 0; factory_class := UvloopFactory_cls |}) ].
Proof. reflexivity. Qed.

Example setup_windows_py37 :
  let s := snd (EventLoopManager.__init__ (fresh_process windows_py37)) in
  fst (EventLoopManager.setup s)
    = Return {| loop_id := 2; loop_class := DefaultEventLoop |} /\
  printed (trace (snd (EventLoopManager.setup s)))
    = [confirmation "windows"
         {| factory_id := 0; factory_class := WindowsLoopFactory_cls |}].
Proof. split; reflexivity. Qed.

Example main_linux_output :
  printed (trace (process (snd (main sample_builtins
                                  (fresh_demo linux_with_uvloop None))))) =
    [ line_configuration sample_builtins
        [ ("system", PyStr "linux");
          ("factory", PyStr "UvloopFactory");
          ("uvloop_available", PyBool true);
          ("python_version", PyStr "3.12.4") ];
      confirmation "linux"
        {| factory_id := 0; factory_class := UvloopFactory_cls |};
      line_starting;
      line_completed;
      line_result demo_result ].
Proof. reflexivity. Qed.

(** ** Proof support *)

Create HintDb loopdb.

#[local] Hint Unfold
  EventLoopManager.__init__ EventLoopManager._get_factory
  EventLoopManager.setup EventLoopManager.get_info
  EventLoopManager._is_uvloop_available
  LoopFactory_create_loop LoopFactory_get_policy
  UvloopFactory.create_loop UvloopFactory.get_policy
  WindowsLoopFactory.create_loop WindowsLoopFactory.get_policy
  DefaultLoopFactory.create_loop DefaultLoopFactory.get_policy
  asyncio_set_event_loop asyncio_new_event_loop
  asyncio_set_event_loop_policy asyncio_get_event_loop_policy
  asyncio_DefaultEventLoopPolicy asyncio_WindowsProactorEventLoopPolicy
  uvloop_EventLoopPolicy uvloop_new_event_loop Policy_new_event_loop
  new_policy new_loop new_factory alloc import_uvloop print
  platform_system_call platform_python_version_call sys_version_info_get
  getattr_system getattr_factory setattr_system setattr_factory
  try_except_ImportError bind ret raise : loopdb.

Arguments confirmation : simpl never.
Arguments advisory : simpl never.

(** Unfold the statements down to the state transformer. *)
Ltac run_m := autounfold with loopdb in *; cbn in *.
Ltac run_goal := autounfold with loopdb; cbn.

(** Split on an innermost scrutinee: one that holds no [match] itself. *)
Ltac innermost x :=
  lazymatch x with
  | context [match _ with _ => _ end] => fail
  | _ => idtac
  end.

Ltac break_goal :=
  match goal with
  | |- context [match ?x with _ => _ end] =>
      innermost x; let E := fresh "E" in destruct x eqn:E; cbn in *
  end.

Ltac break_hyp :=
  match goal with
  | H : context [match ?x with _ => _ end] |- _ =>
      innermost x; let E := fresh "E" in destruct x eqn:E; cbn in *
  end.

Ltac inv_pair :=
  repeat match goal with
  | H : (_, _) = (_, _) |- _ => inversion H; subst; clear H
  | H : Return _ = Return _ |- _ => inversion H; subst; clear H
  | H : Raise _ = Raise _ |- _ => inversion H; subst; clear H
  | H : Some _ = Some _ |- _ => inversion H; subst; clear H
  end.

(** *** The version gate as arithmetic *)

Lemma tuple_ge_3_8 (v : version_info) :
  tuple_ge (version_tuple v) [3; 8]%Z = true <-> at_least_3_8 v.
Proof.
  unfold version_tuple, at_least_3_8; cbn.
  destruct (Z.eqb_spec (major v) 3) as [-> | Hm].
  - destruct (Z.eqb_spec (minor v) 8) as [-> | Hn].
    + split; [intros _; right; lia | reflexivity].
    + rewrite Z.ltb_lt. lia.
  - rewrite Z.ltb_lt. lia.
Qed.

Arguments tuple_ge : simpl never.

(** *** Selection at construction *)

Lemma init_windows (s : State) :
  lower (platform_system (env s)) = "windows" ->
  EventLoopManager.__init__ s =
    (Return tt,
     set_self_factory
       {| factory_id := next_id s; factory_class := WindowsLoopFactory_cls |}
       (bump_next_id (set_self_system "windows" s))).
Proof.
  intros H. run_m. rewrite H. reflexivity.
Qed.

Lemma init_uvloop (s : State) :
  lower (platform_system (env s)) <> "windows" ->
  import_uvloop_outcome (env s) = None ->
  EventLoopManager.__init__ s =
    (Return tt,
     set_self_factory
       {| factory_id := next_id s; factory_class := UvloopFactory_cls |}
       (bump_next_id
          (log EvImportUvloop
             (set_self_system (lower (platform_system (env s))) s)))).
Proof.
  intros Hsys Himp. run_m.
  destruct (String.eqb_spec (lower (platform_system (env s))) "windows")
    as [Heq | _]; [contradiction |].
  cbn. rewrite Himp. reflexivity.
Qed.

Lemma init_default (s : State) (e : exn) :
  lower (platform_system (env s)) <> "windows" ->
  import_uvloop_outcome (env s) = Some e ->
  isinstance_ImportError e = true ->
  EventLoopManager.__init__ s =
    (Return tt,
     set_self_factory
       {| factory_id := next_id s; factory_class := DefaultLoopFactory_cls |}
       (bump_next_id
          (log (EvPrint advisory)
             (log EvImportUvloop
                (set_self_system (lower (platform_system (env s))) s))))).
Proof.
  intros Hsys Himp He. run_m.
  destruct (String.eqb_spec (lower (platform_system (env s))) "windows")
    as [Heq | _]; [contradiction |].
  cbn. rewrite Himp. cbn. rewrite He. reflexivity.
Qed.

Lemma init_propagates (s : State) (e : exn) :
  lower (platform_system (env s)) <> "windows" ->
  import_uvloop_outcome (env s) = Some e ->
  isinstance_ImportError e = false ->
  EventLoopManager.__init__ s =
    (Raise e,
     log EvImportUvloop
       (set_self_system (lower (platform_system (env s))) s)).
Proof.
  intros Hsys Himp He. run_m.
  destruct (String.eqb_spec (lower (platform_system (env s))) "windows")
    as [Heq | _]; [contradiction |].
  cbn. rewrite Himp. cbn. rewrite He. reflexivity.
Qed.

(** *** Projections of the trace *)

Lemma printed_app (t u : list Event) :
  printed (t ++ u) = (printed t ++ printed u)%list.
Proof.
  induction t as [| [] t IH]; cbn; rewrite ?IH; reflexivity.
Qed.

Lemma imports_app (t u : list Event) :
  imports (t ++ u) = imports t + imports u.
Proof.
  induction t as [| [] t IH]; cbn; rewrite ?IH; reflexivity.
Qed.

(** *** Frame properties of the factory methods *)

(** [get_policy] touches neither [self], the environment nor asyncio's
    policy slot, and prints nothing. *)
Lemma get_policy_frame (f : LoopFactory) (s : State) :
  let s' := snd (LoopFactory_get_policy f s) in
  self_system s' = self_system s /\
  self_factory s' = self_factory s /\
  env s' = env s /\
  _event_loop_policy s' = _event_loop_policy s /\
  printed (trace s') = printed (trace s).
Proof.
  destruct f as [i []]; run_m; repeat break_goal;
    rewrite ?printed_app, ?app_nil_r; repeat split; reflexivity.
Qed.

(** [create_loop] touches neither [self] nor the environment, prints
    nothing, and leaves an installed policy in place. *)
Lemma create_loop_frame (f : LoopFactory) (s : State) :
  let s' := snd (LoopFactory_create_loop f s) in
  self_system s' = self_system s /\
  self_factory s' = self_factory s /\
  env s' = env s /\
  printed (trace s') = printed (trace s) /\
  (forall p, _event_loop_policy s = Some p -> _event_loop_policy s' = Some p).
Proof.
  destruct f as [i []]; run_m; repeat break_goal;
    rewrite ?printed_app, ?app_nil_r; repeat split;
    try reflexivity; try congruence.
Qed.

(** A loop returned by [create_loop] is a new object, and the call logs
    the method's import followed by the construction of that loop. *)
Lemma create_loop_returns (f : LoopFactory) (s : State) (l : Loop) (s' : State) :
  LoopFactory_create_loop f s = (Return l, s') ->
  next_id s <= loop_id l < next_id s' /\
  trace s' = (trace s ++ method_imports f ++ [EvNewEventLoop l])%list.
Proof.
  destruct f as [i []]; unfold method_imports; run_m; intros H;
    repeat break_hyp; inv_pair; try discriminate; cbn;
    rewrite <- ?app_assoc; cbn; split; try reflexivity; lia.
Qed.

Lemma get_policy_returns (f : LoopFactory) (s : State) (p : Policy) (s' : State) :
  LoopFactory_get_policy f s = (Return p, s') ->
  policy_id p = next_id s /\ policy_loop p = None /\
  next_id s' = S (next_id s) /\
  trace s' = (trace s ++ method_imports f)%list.
Proof.
  destruct f as [i []]; unfold method_imports; run_m; intros H;
    repeat break_hyp; inv_pair; try discriminate; cbn;
    rewrite ?app_nil_r; repeat split; reflexivity.
Qed.

(** *** The three ways [setup] can end *)

Lemma setup_get_policy_raises (s : State) (f : LoopFactory) (e : exn)
    (s1 : State) :
  self_factory s = Some f ->
  LoopFactory_get_policy f s = (Raise e, s1) ->
  EventLoopManager.setup s = (Raise e, s1).
Proof.
  intros Hf Hg.
  unfold EventLoopManager.setup, bind at 1, getattr_factory at 1.
  rewrite Hf. unfold bind at 1. rewrite Hg. reflexivity.
Qed.

Lemma setup_create_loop_raises (s : State) (f : LoopFactory) (p : Policy)
    (s1 : State) (e : exn) (s2 : State) :
  self_factory s = Some f ->
  LoopFactory_get_policy f s = (Return p, s1) ->
  LoopFactory_create_loop f (policy_installed p s1) = (Raise e, s2) ->
  EventLoopManager.setup s = (Raise e, s2).
Proof.
  intros Hf Hg Hc.
  pose proof (get_policy_frame f s) as (_ & Hf1 & _). rewrite Hg in Hf1.
  cbn in Hf1. rewrite Hf in Hf1.
  unfold EventLoopManager.setup, bind at 1, getattr_factory at 1.
  rewrite Hf. unfold bind at 1. rewrite Hg.
  unfold bind at 1, asyncio_set_event_loop_policy.
  unfold bind at 1, getattr_factory at 1. cbn.
  rewrite Hf1. unfold bind at 1.
  unfold policy_installed in Hc. rewrite Hc. reflexivity.
Qed.

Lemma setup_returns (s : State) (system : string) (f : LoopFactory)
    (p : Policy) (s1 : State) (l : Loop) (s2 : State) :
  constructed s system f ->
  LoopFactory_get_policy f s = (Return p, s1) ->
  LoopFactory_create_loop f (policy_installed p s1) = (Return l, s2) ->
  EventLoopManager.setup s = (Return l, setup_done system f p l s2).
Proof.
  intros [Hsys Hf] Hg Hc.
  pose proof (get_policy_frame f s) as (Hs1 & Hf1 & _). rewrite Hg in Hs1, Hf1.
  cbn in Hs1, Hf1. rewrite Hf in Hf1. rewrite Hsys in Hs1.
  pose proof (create_loop_frame f (policy_installed p s1))
    as (Hs2 & Hf2 & _ & _ & Hp2).
  rewrite Hc in Hs2, Hf2, Hp2. cbn in Hs2, Hf2, Hp2.
  rewrite Hf1 in Hf2. rewrite Hs1 in Hs2. specialize (Hp2 p eq_refl).
  unfold EventLoopManager.setup, bind at 1, getattr_factory at 1.
  rewrite Hf. unfold bind at 1. rewrite Hg.
  unfold bind at 1, asyncio_set_event_loop_policy.
  unfold bind at 1, getattr_factory at 1. cbn.
  rewrite Hf1. unfold bind at 1.
  unfold policy_installed in Hc. rewrite Hc.
  unfold setup_done.
  run_goal. rewrite Hp2. cbn. rewrite Hs2. cbn. rewrite Hf2. reflexivity.
Qed.

(** *** [setup] and [get_info] never write to [self] *)

Lemma setup_frame_run (s : State) (r : result Loop) (s' : State) :
  EventLoopManager.setup s = (r, s') ->
  self_system s' = self_system s /\
  self_factory s' = self_factory s /\
  env s' = env s.
Proof.
  unfold EventLoopManager.setup, bind at 1, getattr_factory at 1.
  destruct (self_factory s) as [f |] eqn:Hf;
    [| intros H; inv_pair; rewrite Hf; auto].
  unfold bind at 1.
  pose proof (get_policy_frame f s) as (Hs1 & Hf1 & He1 & _).
  destruct (LoopFactory_get_policy f s) as [[p | e] s1]; cbn in Hs1, Hf1, He1;
    [| intros H; inv_pair; repeat split; congruence].
  unfold bind at 1, asyncio_set_event_loop_policy.
  unfold bind at 1, getattr_factory at 1. cbn.
  rewrite Hf1, Hf. unfold bind at 1.
  pose proof (create_loop_frame f
                (log (EvSetEventLoopPolicy p) (set_policy_slot p s1)))
    as (Hs2 & Hf2 & He2 & _ & Hp2).
  destruct (LoopFactory_create_loop f
              (log (EvSetEventLoopPolicy p) (set_policy_slot p s1)))
    as [[l | e] s2]; cbn in Hs2, Hf2, He2, Hp2;
    [| intros H; inv_pair; repeat split; congruence].
  specialize (Hp2 p eq_refl).
  run_goal. rewrite Hp2. cbn.
  destruct (self_system s2) eqn:Hsys2; cbn.
  - rewrite Hf2, Hf1, Hf. cbn. intros H; inv_pair; cbn.
    repeat split; congruence.
  - intros H; inv_pair; cbn. repeat split; congruence.
Qed.

Lemma setup_frame (s : State) :
  let s' := snd (EventLoopManager.setup s) in
  self_system s' = self_system s /\
  self_factory s' = self_factory s /\
  env s' = env s.
Proof.
  destruct (EventLoopManager.setup s) as [r s'] eqn:H.
  exact (setup_frame_run s r s' H).
Qed.

Lemma get_info_frame (s : State) :
  let s' := snd (EventLoopManager.get_info s) in
  self_system s' = self_system s /\
  self_factory s' = self_factory s /\
  env s' = env s /\
  _event_loop_policy s' = _event_loop_policy s /\
  next_id s' = next_id s /\
  printed (trace s') = printed (trace s).
Proof.
  run_m; repeat break_goal; rewrite ?printed_app, ?app_nil_r;
    repeat split; congruence.
Qed.

Lemma step_frame (c : call) (s : State) :
  self_system (step c s) = self_system s /\
  self_factory (step c s) = self_factory s.
Proof.
  destruct c; cbn [step].
  - pose proof (setup_frame s) as (H1 & H2 & _). auto.
  - pose proof (get_info_frame s) as (H1 & H2 & _). auto.
  - split; reflexivity.
Qed.

Lemma run_frame (cs : list call) (s : State) :
  self_system (run cs s) = self_system s /\
  self_factory (run cs s) = self_factory s.
Proof.
  revert s. induction cs as [| c cs IH]; intros s; cbn [run].
  - split; reflexivity.
  - destruct (IH (step c s)) as [H1 H2].
    destruct (step_frame c s) as [H3 H4].
    split; congruence.
Qed.

(** After a completed [__init__] both attributes are set, and [system] is
    the lower-cased platform name. *)
Lemma init_constructed (s : State) (s' : State) :
  EventLoopManager.__init__ s = (Return tt, s') ->
  exists f,
    constructed s' (lower (platform_system (env s))) f /\
    next_id s <= factory_id f.
Proof.
  unfold constructed. run_m. intros H.
  repeat break_hyp; inv_pair; try discriminate; cbn;
    eexists; repeat split; cbn; lia.
Qed.

(** *** [get_info] *)

Lemma get_info_returns (s : State) (system : string) (f : LoopFactory)
    (b : bool) :
  constructed s system f ->
  match import_uvloop_outcome (env s) with
  | None => b = true
  | Some e => isinstance_ImportError e = true /\ b = false
  end ->
  EventLoopManager.get_info s =
    (Return [ ("system", PyStr system);
              ("factory", PyStr (__name__ (factory_class f)));
              ("uvloop_available", PyBool b);
              ("python_version", PyStr (platform_python_version (env s))) ],
     log EvImportUvloop s).
Proof.
  intros [Hsys Hf] Hb. run_goal. rewrite Hsys. cbn. rewrite Hf. cbn.
  destruct (import_uvloop_outcome (env s)) as [e |]; cbn.
  - destruct Hb as [He ->]. rewrite He. reflexivity.
  - subst b. reflexivity.
Qed.

Lemma get_info_inv (s : State) (d : dict) (s' : State) :
  EventLoopManager.get_info s = (Return d, s') ->
  exists system f,
    constructed s system f /\
    dict_get "system" d = Some (PyStr system) /\
    dict_get "factory" d = Some (PyStr (__name__ (factory_class f))).
Proof.
  unfold constructed. run_m. intros H.
  repeat break_hyp; inv_pair; try discriminate;
    do 2 eexists; repeat split; reflexivity.
Qed.

(** ** Selection at construction: main results *)

(** C1, as the code has it.  On every platform whose lower-cased name is
    not "windows", constructing the manager selects [UvloopFactory] when
    [import uvloop] succeeds, and [DefaultLoopFactory] when the import
    fails with an [ImportError] or a subclass of it; in both cases the
    constructor returns and [system] holds the lower-cased platform name.
    When the import raises an exception of any other class, nothing is
    selected: the constructor raises that exception. *)
Theorem C1_selection_off_windows (s : State) :
  lower (platform_system (env s)) <> "windows" ->
  (import_uvloop_outcome (env s) = None ->
   exists s' f,
     EventLoopManager.__init__ s = (Return tt, s') /\
     constructed s' (lower (platform_system (env s))) f /\
     factory_class f = UvloopFactory_cls) /\
  (forall e,
     import_uvloop_outcome (env s) = Some e ->
     isinstance_ImportError e = true ->
     exists s' f,
       EventLoopManager.__init__ s = (Return tt, s') /\
       constructed s' (lower (platform_system (env s))) f /\
       factory_class f = DefaultLoopFactory_cls) /\
  (forall e,
     import_uvloop_outcome (env s) = Some e ->
     isinstance_ImportError e = false ->
     exists s',
       EventLoopManager.__init__ s = (Raise e, s') /\
       self_factory s' = self_factory s).
Proof.
  intros Hsys. split; [| split].
  - intros Himp. rewrite (init_uvloop s Hsys Himp).
    do 2 eexists. split; [reflexivity |]. split; [split |]; reflexivity.
  - intros e Himp He. rewrite (init_default s e Hsys Himp He).
    do 2 eexists. split; [reflexivity |]. split; [split |]; reflexivity.
  - intros e Himp He. rewrite (init_propagates s e Hsys Himp He).
    eexists. split; reflexivity.
Qed.

Lemma C1_selection_off_windows_witness :
  lower (platform_system (env (fresh_process linux_with_uvloop))) <> "windows" /\
  (exists s' f,
     EventLoopManager.__init__ (fresh_process linux_with_uvloop)
       = (Return tt, s') /\
     constructed s' "linux" f /\
     factory_class f = UvloopFactory_cls) /\
  (exists s' f,
     EventLoopManager.__init__ (fresh_process linux_without_uvloop)
       = (Return tt, s') /\
     constructed s' "linux" f /\
     factory_class f = DefaultLoopFactory_cls) /\
  (exists s',
     EventLoopManager.__init__ (fresh_process linux_broken_uvloop)
       = (Raise AttributeError, s') /\
     self_factory s' = None).
Proof.
  assert (H : lower "Linux" <> "windows") by (vm_compute; discriminate).
  split; [exact H |]. split; [| split].
  - exact (proj1 (C1_selection_off_windows
                    (fresh_process linux_with_uvloop) H) eq_refl).
  - exact (proj1 (proj2 (C1_selection_off_windows
                           (fresh_process linux_without_uvloop) H))
             ModuleNotFoundError eq_refl eq_refl).
  - exact (proj2 (proj2 (C1_selection_off_windows
                           (fresh_process linux_broken_uvloop) H))
             AttributeError eq_refl eq_refl).
Defined.

(** C1 as stated fails.  On Linux, with a uvloop whose import raises
    [AttributeError], uvloop is not importable, yet the constructor does
    not select the default variant: it raises and stores no factory. *)
Lemma C1_counterexample :
  lower (platform_system linux_broken_uvloop) <> "windows" /\
  importable linux_broken_uvloop = false /\
  ~ (exists s' f,
       EventLoopManager.__init__ (fresh_process linux_broken_uvloop)
         = (Return tt, s') /\
       self_factory s' = Some f /\
       factory_class f = DefaultLoopFactory_cls).
Proof.
  split; [vm_compute; discriminate |]. split; [reflexivity |].
  intros (s' & f & H & _). vm_compute in H. discriminate.
Qed.

(** C2.  When the lower-cased platform name is "windows", the constructor
    selects [WindowsLoopFactory] whatever the outcome of importing uvloop
    would be, and performs no external call at all: the trace is unchanged,
    so [import uvloop] is not executed. *)
Theorem C2_selection_on_windows (s : State) :
  lower (platform_system (env s)) = "windows" ->
  exists s' f,
    EventLoopManager.__init__ s = (Return tt, s') /\
    constructed s' "windows" f /\
    factory_class f = WindowsLoopFactory_cls /\
    trace s' = trace s /\
    imports (trace s') = imports (trace s).
Proof.
  intros Hsys. rewrite (init_windows s Hsys).
  do 2 eexists. split; [reflexivity |].
  split; [split; reflexivity |]. repeat split; reflexivity.
Qed.

Lemma C2_selection_on_windows_witness :
  lower (platform_system (env (fresh_process windows_without_uvloop)))
    = "windows" /\
  exists s' f,
    EventLoopManager.__init__ (fresh_process windows_without_uvloop)
      = (Return tt, s') /\
    constructed s' "windows" f /\
    factory_class f = WindowsLoopFactory_cls /\
    trace s' = trace (fresh_process windows_without_uvloop) /\
    imports (trace s') = imports (trace (fresh_process windows_without_uvloop)).
Proof.
  split; [reflexivity |].
  exact (C2_selection_on_windows (fresh_process windows_without_uvloop)
           eq_refl).
Defined.

(** C4, as the code has it.  Off Windows, when [import uvloop] raises [e]:
    if [e] is an [ImportError] (or a subclass), the constructor returns,
    [DefaultLoopFactory] is selected and the only output is the advisory
    line; if [e] is of any other class, it is not caught and the
    constructor raises [e], leaving [factory] unset. *)
Theorem C4_probe_failure (s : State) (e : exn) :
  lower (platform_system (env s)) <> "windows" ->
  import_uvloop_outcome (env s) = Some e ->
  (isinstance_ImportError e = true ->
   exists s' f,
     EventLoopManager.__init__ s = (Return tt, s') /\
     constructed s' (lower (platform_system (env s))) f /\
     factory_class f = DefaultLoopFactory_cls /\
     trace s' = (trace s ++ [EvImportUvloop; EvPrint advisory])%list /\
     printed (trace s') = (printed (trace s) ++ [advisory])%list) /\
  (isinstance_ImportError e = false ->
   exists s',
     EventLoopManager.__init__ s = (Raise e, s') /\
     self_factory s' = self_factory s /\
     printed (trace s') = printed (trace s)).
Proof.
  intros Hsys Himp. split; intros He.
  - rewrite (init_default s e Hsys Himp He).
    do 2 eexists. split; [reflexivity |].
    split; [split; reflexivity |]. split; [reflexivity |].
    cbn. rewrite <- app_assoc. split; [reflexivity |].
    rewrite printed_app. cbn. reflexivity.
  - rewrite (init_propagates s e Hsys Himp He).
    eexists. split; [reflexivity |]. cbn.
    rewrite printed_app, app_nil_r. split; reflexivity.
Qed.

Lemma C4_probe_failure_witness :
  lower (platform_system (env (fresh_process linux_without_uvloop)))
    <> "windows" /\
  (exists s' f,
     EventLoopManager.__init__ (fresh_process linux_without_uvloop)
       = (Return tt, s') /\
     constructed s' "linux" f /\
     factory_class f = DefaultLoopFactory_cls /\
     trace s' = [EvImportUvloop; EvPrint advisory] /\
     printed (trace s') = [advisory]) /\
  (exists s',
     EventLoopManager.__init__ (fresh_process linux_broken_uvloop)
       = (Raise AttributeError, s') /\
     self_factory s' = None /\
     printed (trace s') = []).
Proof.
  assert (H : lower "Linux" <> "windows") by (vm_compute; discriminate).
  split; [exact H |]. split.
  - exact (proj1 (C4_probe_failure (fresh_process linux_without_uvloop)
                    ModuleNotFoundError H eq_refl) eq_refl).
  - exact (proj2 (C4_probe_failure (fresh_process linux_broken_uvloop)
                    AttributeError H eq_refl) eq_refl).
Defined.

(** C4 as stated fails: on Linux, with a uvloop whose import raises
    [AttributeError], the constructor does not fall back to the default
    variant but raises that exception to its caller. *)
Lemma C4_counterexample :
  lower (platform_system linux_broken_uvloop) <> "windows" /\
  import_uvloop_outcome linux_broken_uvloop = Some AttributeError /\
  fst (EventLoopManager.__init__ (fresh_process linux_broken_uvloop))
    = Raise AttributeError /\
  self_factory (snd (EventLoopManager.__init__
                       (fresh_process linux_broken_uvloop))) = None.
Proof.
  split; [vm_compute; discriminate |].
  repeat split; reflexivity.
Qed.

(** ** Configuration: main results *)

Lemma get_policy_total (f : LoopFactory) (s : State) :
  (factory_class f = UvloopFactory_cls -> import_uvloop_outcome (env s) = None) ->
  exists p s1, LoopFactory_get_policy f s = (Return p, s1).
Proof.
  destruct f as [i []]; cbn; intros H; run_goal.
  - rewrite (H eq_refl). cbn. eauto.
  - break_goal; eauto.
  - eauto.
Qed.


(** Every way [setup] can end on a constructed manager. *)
Lemma setup_cases (s : State) (system : string) (f : LoopFactory)
    (r : result Loop) (s' : State) :
  constructed s system f ->
  EventLoopManager.setup s = (r, s') ->
  (exists e, r = Raise e /\ LoopFactory_get_policy f s = (Raise e, s')) \/
  (exists p s1 e,
     r = Raise e /\
     LoopFactory_get_policy f s = (Return p, s1) /\
     LoopFactory_create_loop f (policy_installed p s1) = (Raise e, s')) \/
  (exists p s1 l s2,
     r = Return l /\
     LoopFactory_get_policy f s = (Return p, s1) /\
     LoopFactory_create_loop f (policy_installed p s1) = (Return l, s2) /\
     s' = setup_done system f p l s2).
Proof.
  intros Hc H. pose proof Hc as [Hsys Hf].
  destruct (LoopFactory_get_policy f s) as [[p | e] s1] eqn:Hg.
  - destruct (LoopFactory_create_loop f (policy_installed p s1))
      as [[l | e] s2] eqn:Hl.
    + rewrite (setup_returns s system f p s1 l s2 Hc Hg Hl) in H.
      inv_pair. right; right. exists p, s1, l, s2. auto.
    + rewrite (setup_create_loop_raises s f p s1 e s2 Hf Hg Hl) in H.
      inv_pair. right; left. exists p, s1, e. auto.
  - rewrite (setup_get_policy_raises s f e s1 Hf Hg) in H.
    inv_pair. left. exists e. auto.
Qed.



(** C5, as the code has it.  On a constructed manager every [setup] ends in
    one of three ways.  If it returns [l], the factory's policy and [l] are
    both installed.  If [get_policy] raised, the exception reaches the
    caller and the policy slot (with the loop it holds) is unchanged.  If
    [create_loop] raised, the exception reaches the caller after the new
    policy has been installed, and that policy holds no loop. *)
Theorem C5_setup_installation (s : State) (system : string) (f : LoopFactory)
    (r : result Loop) (s' : State) :
  constructed s system f ->
  EventLoopManager.setup s = (r, s') ->
  match r with
  | Return l =>
      exists p s1,
        LoopFactory_get_policy f s = (Return p, s1) /\
        _event_loop_policy s' = Some (with_loop p l) /\
        default_event_loop s' = Some l
  | Raise e =>
      (fst (LoopFactory_get_policy f s) = Raise e /\
       _event_loop_policy s' = _event_loop_policy s /\
       default_event_loop s' = default_event_loop s) \/
      (exists p s1,
         LoopFactory_get_policy f s = (Return p, s1) /\
         fst (LoopFactory_create_loop f (policy_installed p s1)) = Raise e /\
         _event_loop_policy s' = Some p /\
         policy_id p = next_id s /\
         default_event_loop s' = None)
  end.
Proof.
  intros Hc H.
  destruct (setup_cases s system f r s' Hc H)
    as [(e & -> & Hg) | [(p & s1 & e & -> & Hg & Hl)
                        | (p & s1 & l & s2 & -> & Hg & Hl & ->)]].
  - left. pose proof (get_policy_frame f s) as (_ & _ & _ & Hp & _).
    rewrite Hg in *. cbn in Hp. unfold default_event_loop.
    rewrite Hp. auto.
  - right. exists p, s1.
    destruct (get_policy_returns f s p s1 Hg) as (Hid & Hnone & _).
    pose proof (create_loop_frame f (policy_installed p s1))
      as (_ & _ & _ & _ & Hp).
    rewrite Hl in *. cbn in Hp. specialize (Hp p eq_refl).
    unfold default_event_loop. rewrite Hp. auto.
  - exists p, s1. cbn. auto.
Qed.

Lemma C5_setup_installation_witness :
  constructed s_loop_fails "linux"
    {| factory_id := 0; factory_class := UvloopFactory_cls |} /\
  exists p s',
    EventLoopManager.setup s_loop_fails = (Raise OSError, s') /\
    _event_loop_policy s' = Some p /\
    policy_loop p = None /\
    default_event_loop s' = None.
Proof.
  assert (Hc : constructed s_loop_fails "linux"
                 {| factory_id := 0; factory_class := UvloopFactory_cls |})
    by (split; reflexivity).
  split; [exact Hc |].
  destruct (EventLoopManager.setup s_loop_fails) as [r s'] eqn:H.
  pose proof (C5_setup_installation s_loop_fails _ _ r s' Hc H) as Hspec.
  vm_compute in H. inv_pair.
  destruct Hspec as [(Hg & _) | (p & s1 & Hg & _ & Hp & _ & Hd)].
  - vm_compute in Hg. discriminate.
  - eexists. eexists. split; [reflexivity |].
    split; [reflexivity |]. split; reflexivity.
Defined.

(** C5 as stated fails.  A manager has run [setup] once, so a policy
    holding a loop is installed; loops then become impossible to construct.
    The next [setup] raises, yet the process-wide policy has been replaced:
    the call failed and a registration changed. *)
Lemma C5_counterexample :
  exists e s' l,
    EventLoopManager.setup s_loop_fails = (Raise e, s') /\
    default_event_loop s_loop_fails = Some l /\
    _event_loop_policy s' <> _event_loop_policy s_loop_fails /\
    default_event_loop s' <> default_event_loop s_loop_fails.
Proof.
  exists OSError, (snd (EventLoopManager.setup s_loop_fails)),
    {| loop_id := 2; loop_class := uvloop_Loop |}.
  split; [reflexivity |]. split; [reflexivity |].
  split; vm_compute; discriminate.
Qed.

(** C6.  On a manager whose factory is [f]: if [get_policy] raises [e],
    [setup] raises [e] in exactly the state that call left; if
    [get_policy] returns and [create_loop] raises [e], [setup] raises [e]
    in exactly the state that call left.  Nothing runs after the failing
    call: [self] keeps its factory and nothing is printed. *)
Theorem C6_failure_propagates (s : State) (f : LoopFactory) :
  self_factory s = Some f ->
  (forall e s1,
     LoopFactory_get_policy f s = (Raise e, s1) ->
     EventLoopManager.setup s = (Raise e, s1) /\
     self_factory s1 = Some f /\
     printed (trace s1) = printed (trace s)) /\
  (forall p s1 e s2,
     LoopFactory_get_policy f s = (Return p, s1) ->
     LoopFactory_create_loop f (policy_installed p s1) = (Raise e, s2) ->
     EventLoopManager.setup s = (Raise e, s2) /\
     self_factory s2 = Some f /\
     printed (trace s2) = printed (trace s)).
Proof.
  intros Hf. split.
  - intros e s1 Hg.
    pose proof (get_policy_frame f s) as (_ & Hf1 & _ & _ & Hpr).
    rewrite Hg in *. cbn in Hf1, Hpr.
    split; [exact (setup_get_policy_raises s f e s1 Hf Hg) |].
    split; congruence.
  - intros p s1 e s2 Hg Hl.
    pose proof (get_policy_frame f s) as (_ & Hf1 & _ & _ & Hpr1).
    rewrite Hg in *. cbn in Hf1, Hpr1.
    pose proof (create_loop_frame f (policy_installed p s1))
      as (_ & Hf2 & _ & Hpr2 & _).
    rewrite Hl in *. cbn in Hf2, Hpr2.
    rewrite printed_app in Hpr2. cbn in Hpr2. rewrite app_nil_r in Hpr2.
    split; [exact (setup_create_loop_raises s f p s1 e s2 Hf Hg Hl) |].
    split; congruence.
Qed.

Lemma C6_failure_propagates_witness :
  self_factory s_uvloop_removed
    = Some {| factory_id := 0; factory_class := UvloopFactory_cls |} /\
  (exists s1,
     EventLoopManager.setup s_uvloop_removed = (Raise ModuleNotFoundError, s1) /\
     printed (trace s1) = printed (trace s_uvloop_removed)) /\
  (exists s2,
     EventLoopManager.setup s_loop_fails = (Raise OSError, s2) /\
     printed (trace s2) = printed (trace s_loop_fails)).
Proof.
  split; [reflexivity |]. split.
  - destruct (proj1 (C6_failure_propagates s_uvloop_removed
                       {| factory_id := 0; factory_class := UvloopFactory_cls |}
                       eq_refl)
                ModuleNotFoundError
                (snd (LoopFactory_get_policy
                        {| factory_id := 0; factory_class := UvloopFactory_cls |}
                        s_uvloop_removed))
                eq_refl) as (H & _ & Hpr).
    eexists. split; [exact H | exact Hpr].
  - destruct (proj2 (C6_failure_propagates s_loop_fails
                       {| factory_id := 0; factory_class := UvloopFactory_cls |}
                       eq_refl)
                {| policy_id := 3; policy_class := uvloop_EventLoopPolicy_cls;
                   policy_loop := None |}
                (snd (LoopFactory_get_policy
                        {| factory_id := 0; factory_class := UvloopFactory_cls |}
                        s_loop_fails))
                OSError
                (snd (LoopFactory_create_loop
                        {| factory_id := 0; factory_class := UvloopFactory_cls |}
                        (policy_installed
                           {| policy_id := 3;
                              policy_class := uvloop_EventLoopPolicy_cls;
                              policy_loop := None |}
                           (snd (LoopFactory_get_policy
                                   {| factory_id := 0;
                                      factory_class := UvloopFactory_cls |}
                                   s_loop_fails)))))
                eq_refl eq_refl) as (H & _ & Hpr).
    eexists. split; [exact H | exact Hpr].
Defined.

(** ** The Windows factory: main result *)

(** C8.  [WindowsLoopFactory] has exactly two behaviours, chosen by the
    runtime version.  From 3.8 on, [get_policy] returns a new
    [WindowsProactorEventLoopPolicy] and [create_loop] is
    [new_event_loop()] of such a policy, so a loop it returns is a
    [ProactorEventLoop].  Below 3.8, [get_policy] returns a new
    [DefaultEventLoopPolicy] and [create_loop] is
    [asyncio.new_event_loop()]. *)
Theorem C8_windows_version_gate (s : State) :
  (at_least_3_8 (sys_version_info (env s)) ->
   WindowsLoopFactory.get_policy s =
     (Return {| policy_id := next_id s;
                policy_class := WindowsProactorEventLoopPolicy_cls;
                policy_loop := None |},
      bump_next_id s) /\
   WindowsLoopFactory.create_loop s =
     (p <- asyncio_WindowsProactorEventLoopPolicy ;; Policy_new_event_loop p) s /\
   (forall l s',
      WindowsLoopFactory.create_loop s = (Return l, s') ->
      loop_class l = ProactorEventLoop) /\
   (loop_ctor_outcome (env s) ProactorEventLoop = None ->
    exists l s',
      WindowsLoopFactory.create_loop s = (Return l, s') /\
      _event_loop_policy s' = _event_loop_policy s)) /\
  (~ at_least_3_8 (sys_version_info (env s)) ->
   WindowsLoopFactory.get_policy s =
     (Return {| policy_id := next_id s;
                policy_class := DefaultEventLoopPolicy_cls;
                policy_loop := None |},
      bump_next_id s) /\
   WindowsLoopFactory.create_loop s = asyncio_new_event_loop s).
Proof.
  split; intros Hv.
  - apply tuple_ge_3_8 in Hv.
    unfold WindowsLoopFactory.get_policy, WindowsLoopFactory.create_loop,
      sys_version_info_get, bind.
    rewrite Hv. split; [reflexivity |]. split; [reflexivity |].
    split.
    + intros l s'. run_goal.
      break_goal; intros H; inv_pair; try discriminate; reflexivity.
    + intros Hc. run_goal. rewrite Hc. do 2 eexists. split; reflexivity.
  - assert (Hf : tuple_ge (version_tuple (sys_version_info (env s))) [3; 8]%Z
                 = false).
    { destruct (tuple_ge _ _) eqn:E; [| reflexivity].
      apply tuple_ge_3_8 in E. contradiction. }
    unfold WindowsLoopFactory.get_policy, WindowsLoopFactory.create_loop,
      sys_version_info_get, bind.
    rewrite Hf. split; reflexivity.
Qed.

Lemma C8_windows_version_gate_witness :
  at_least_3_8 (sys_version_info (env s_windows)) /\
  ~ at_least_3_8 (sys_version_info (env (fresh_process windows_py37))) /\
  policy_class_of (WindowsLoopFactory.get_policy s_windows)
    = Some WindowsProactorEventLoopPolicy_cls /\
  policy_class_of (WindowsLoopFactory.get_policy (fresh_process windows_py37))
    = Some DefaultEventLoopPolicy_cls.
Proof.
  assert (H38 : at_least_3_8 (sys_version_info (env s_windows)))
    by (change (sys_version_info (env s_windows)) with py312;
        unfold at_least_3_8; cbn; lia).
  assert (H37 : ~ at_least_3_8 (sys_version_info
                                  (env (fresh_process windows_py37))))
    by (unfold at_least_3_8; cbn; lia).
  split; [exact H38 |]. split; [exact H37 |]. split.
  - rewrite (proj1 (proj1 (C8_windows_version_gate s_windows) H38)).
    reflexivity.
  - rewrite (proj1 (proj2 (C8_windows_version_gate
                             (fresh_process windows_py37)) H37)).
    reflexivity.
Defined.

(** ** The diagnostic snapshot and the immutability of [self] *)

(** C9.  Whenever [get_info] returns a dictionary on a constructed manager,
    its ["uvloop_available"] entry is [True] exactly when [import uvloop]
    succeeds in the current environment, whatever factory [f] was selected;
    the ["factory"] entry is the class name of [f]; the import is executed
    once more by this very call.  [get_info] returns whenever the import
    succeeds or fails with an [ImportError]. *)
Theorem C9_uvloop_available_live (s : State) (system : string)
    (f : LoopFactory) :
  constructed s system f ->
  (forall d s',
     EventLoopManager.get_info s = (Return d, s') ->
     dict_get "uvloop_available" d = Some (PyBool (importable (env s))) /\
     dict_get "factory" d = Some (PyStr (__name__ (factory_class f))) /\
     imports (trace s') = S (imports (trace s))) /\
  (probe_answers (env s) ->
   exists d s', EventLoopManager.get_info s = (Return d, s')).
Proof.
  intros Hc.
  assert (Hret : probe_answers (env s) ->
                 EventLoopManager.get_info s =
                   (Return [ ("system", PyStr system);
                             ("factory", PyStr (__name__ (factory_class f)));
                             ("uvloop_available", PyBool (importable (env s)));
                             ("python_version",
                              PyStr (platform_python_version (env s))) ],
                    log EvImportUvloop s)).
  { intros Hp. apply get_info_returns; [exact Hc |].
    unfold probe_answers, importable in *.
    destruct (import_uvloop_outcome (env s)); auto. }
  split.
  - intros d s' H.
    assert (Hp : probe_answers (env s)).
    { unfold probe_answers. destruct Hc as [Hsys Hf]. revert H.
      run_goal. rewrite Hsys. cbn. rewrite Hf. cbn.
      destruct (import_uvloop_outcome (env s)) as [e |]; cbn; [| auto].
      destruct (isinstance_ImportError e); [reflexivity | discriminate]. }
    rewrite (Hret Hp) in H. inv_pair. cbn.
    rewrite imports_app. cbn. repeat split; try reflexivity. lia.
  - intros Hp. rewrite (Hret Hp). eauto.
Qed.

Lemma C9_uvloop_available_live_witness :
  constructed s_windows "windows"
    {| factory_id := 0; factory_class := WindowsLoopFactory_cls |} /\
  probe_answers (env s_windows) /\
  exists d s',
    EventLoopManager.get_info s_windows = (Return d, s') /\
    dict_get "uvloop_available" d = Some (PyBool true) /\
    dict_get "factory" d = Some (PyStr "WindowsLoopFactory").
Proof.
  assert (Hc : constructed s_windows "windows"
                 {| factory_id := 0; factory_class := WindowsLoopFactory_cls |})
    by (split; reflexivity).
  assert (Hp : probe_answers (env s_windows)) by exact I.
  split; [exact Hc |]. split; [exact Hp |].
  destruct (proj2 (C9_uvloop_available_live s_windows _ _ Hc) Hp)
    as (d & s' & H).
  destruct (proj1 (C9_uvloop_available_live s_windows _ _ Hc) d s' H)
    as (Ha & Hf & _).
  exists d, s'. split; [exact H |]. split; [exact Ha | exact Hf].
Defined.

(** C7.  After a completed construction, take any sequence of [setup] and
    [get_info] calls and environment changes, and any later continuation of
    it.  Two [get_info] calls made at these two moments that return
    dictionaries agree on ["system"] and ["factory"]: both hold the
    lower-cased platform name read by the constructor and the class name of
    the factory the constructor stored.  [get_info] does not run the
    selection again: it leaves [self] as it is, allocates no object and
    prints nothing. *)
Theorem C7_get_info_stable (s0 s : State) (cs cs' : list call)
    (d d' : dict) (s1 s2 : State) :
  EventLoopManager.__init__ s0 = (Return tt, s) ->
  EventLoopManager.get_info (run cs s) = (Return d, s1) ->
  EventLoopManager.get_info (run (cs ++ cs') s) = (Return d', s2) ->
  dict_get "system" d = dict_get "system" d' /\
  dict_get "factory" d = dict_get "factory" d' /\
  dict_get "system" d = Some (PyStr (lower (platform_system (env s0)))) /\
  (exists f,
     self_factory s = Some f /\
     dict_get "factory" d = Some (PyStr (__name__ (factory_class f)))) /\
  self_system s1 = self_system s /\
  self_factory s1 = self_factory s /\
  next_id s1 = next_id (run cs s) /\
  printed (trace s1) = printed (trace (run cs s)).
Proof.
  intros Hinit H1 H2.
  destruct (init_constructed s0 s Hinit) as (f & (Hsys & Hf) & _).
  destruct (run_frame cs s) as (Rs & Rf).
  destruct (run_frame (cs ++ cs') s) as (Rs' & Rf').
  destruct (get_info_inv _ _ _ H1) as (y1 & f1 & (Hy1 & Hf1) & D1 & F1).
  destruct (get_info_inv _ _ _ H2) as (y2 & f2 & (Hy2 & Hf2) & D2 & F2).
  assert (y1 = lower (platform_system (env s0))) by congruence.
  assert (y2 = lower (platform_system (env s0))) by congruence.
  assert (f1 = f) by congruence. assert (f2 = f) by congruence. subst.
  pose proof (get_info_frame (run cs s)) as (G1 & G2 & _ & _ & G5 & G6).
  rewrite H1 in *. cbn in G1, G2, G5, G6.
  repeat split; try congruence.
  exists f. split; congruence.
Qed.

Lemma C7_get_info_stable_witness :
  exists d d' s1 s2,
    EventLoopManager.get_info (run [call_get_info] s_linux_uvloop)
      = (Return d, s1) /\
    EventLoopManager.get_info
      (run ([call_get_info]
            ++ [call_setup; env_change linux_without_uvloop; call_setup])
         s_linux_uvloop)
      = (Return d', s2) /\
    dict_get "system" d = dict_get "system" d' /\
    dict_get "factory" d = dict_get "factory" d' /\
    dict_get "factory" d' = Some (PyStr "UvloopFactory") /\
    dict_get "uvloop_available" d' = Some (PyBool false).
Proof.
  destruct (EventLoopManager.get_info (run [call_get_info] s_linux_uvloop))
    as [r1 s1] eqn:H1.
  destruct (EventLoopManager.get_info
              (run ([call_get_info]
                    ++ [call_setup; env_change linux_without_uvloop;
                        call_setup])
                 s_linux_uvloop)) as [r2 s2] eqn:H2.
  assert (E1 : exists d, r1 = Return d)
    by (vm_compute in H1; inv_pair; eexists; reflexivity).
  assert (E2 : exists d, r2 = Return d /\
                 dict_get "factory" d = Some (PyStr "UvloopFactory") /\
                 dict_get "uvloop_available" d = Some (PyBool false))
    by (vm_compute in H2; inv_pair; eexists; repeat split; reflexivity).
  destruct E1 as (d & ->). destruct E2 as (d' & -> & F & A).
  destruct (C7_get_info_stable (fresh_process linux_with_uvloop)
              s_linux_uvloop [call_get_info]
              [call_setup; env_change linux_without_uvloop; call_setup]
              d d' s1 s2 eq_refl H1 H2) as (Hs & Hf & _).
  exists d, d', s1, s2. repeat split; assumption.
Defined.

(** C10.  After a completed construction, no sequence of [setup] and
    [get_info] calls, whatever happens to the environment in between and
    whether or not the calls raise, changes [self]: [system] is still the
    string and [factory] still the very object (class and identity) that
    the constructor stored. *)
Theorem C10_self_unchanged (s0 s : State) (cs : list call) :
  EventLoopManager.__init__ s0 = (Return tt, s) ->
  exists f,
    self_system s = Some (lower (platform_system (env s0))) /\
    self_factory s = Some f /\
    self_system (run cs s) = Some (lower (platform_system (env s0))) /\
    self_factory (run cs s) = Some f.
Proof.
  intros Hinit.
  destruct (init_constructed s0 s Hinit) as (f & (Hsys & Hf) & _).
  destruct (run_frame cs s) as (Rs & Rf).
  exists f. repeat split; congruence.
Qed.

Lemma C10_self_unchanged_witness :
  exists f,
    self_system s_linux_uvloop = Some "linux" /\
    self_factory s_linux_uvloop = Some f /\
    self_system
      (run [call_setup; call_get_info; env_change linux_without_uvloop;
            call_setup; call_get_info] s_linux_uvloop) = Some "linux" /\
    self_factory
      (run [call_setup; call_get_info; env_change linux_without_uvloop;
            call_setup; call_get_info] s_linux_uvloop) = Some f.
Proof.
  exact (C10_self_unchanged (fresh_process linux_with_uvloop) s_linux_uvloop
           [call_setup; call_get_info; env_change linux_without_uvloop;
            call_setup; call_get_info] eq_refl).
Defined.

(** ** Further properties of the factories *)

(** Imports and allocations of the factory methods, whatever their
    outcome. *)
Lemma get_policy_counts (f : LoopFactory) (s : State) :
  let s' := snd (LoopFactory_get_policy f s) in
  imports (trace s') = imports (trace s) + length (method_imports f) /\
  next_id s <= next_id s'.
Proof.
  destruct f as [i []]; unfold method_imports; run_m; repeat break_goal;
    rewrite ?imports_app; cbn; split; lia.
Qed.

Lemma create_loop_counts (f : LoopFactory) (s : State) :
  let s' := snd (LoopFactory_create_loop f s) in
  imports (trace s') = imports (trace s) + length (method_imports f) /\
  next_id s <= next_id s'.
Proof.
  destruct f as [i []]; unfold method_imports; run_m; repeat break_goal;
    rewrite ?imports_app; cbn; split; lia.
Qed.

(** The class of the policy [get_policy] returns. *)
Lemma get_policy_class (f : LoopFactory) (s : State) (p : Policy)
    (s1 : State) :
  LoopFactory_get_policy f s = (Return p, s1) ->
  _loop_factory (policy_class p)
    = built_loop_class (factory_class f) (sys_version_info (env s)).
Proof.
  destruct f as [i []]; unfold built_loop_class; run_m; intros H;
    repeat break_hyp; inv_pair; try discriminate; reflexivity.
Qed.

(** With the factory's own policy installed, [create_loop] returns exactly
    when the backend is usable, and the loop has the expected class. *)
Lemma create_loop_after_install (f : LoopFactory) (s : State) (p : Policy) :
  _event_loop_policy s = Some p ->
  _loop_factory (policy_class p)
    = built_loop_class (factory_class f) (sys_version_info (env s)) ->
  (backend_usable (env s) (factory_class f) ->
   exists l s2, LoopFactory_create_loop f s = (Return l, s2)) /\
  (forall l s2,
     LoopFactory_create_loop f s = (Return l, s2) ->
     backend_usable (env s) (factory_class f) /\
     loop_class l
       = built_loop_class (factory_class f) (sys_version_info (env s))).
Proof.
  intros Hp. unfold backend_usable.
  destruct f as [i []]; unfold built_loop_class; cbn.
  - intros _. split.
    + intros [Hi Hc]. run_goal. rewrite (Hi eq_refl). cbn. rewrite Hc. eauto.
    + intros l s2. run_goal.
      destruct (import_uvloop_outcome (env s)); cbn; [discriminate |].
      destruct (loop_ctor_outcome (env s) uvloop_Loop) eqn:Hc;
        [discriminate |].
      intros H; inv_pair. repeat split; auto.
  - unfold LoopFactory_create_loop, WindowsLoopFactory.create_loop,
      sys_version_info_get, bind at 1. cbn.
    destruct (tuple_ge (version_tuple (sys_version_info (env s))) [3; 8]%Z).
    + intros _. split.
      * intros [_ Hc]. run_goal. rewrite Hc. eauto.
      * intros l s2. run_goal.
        destruct (loop_ctor_outcome (env s) ProactorEventLoop) eqn:Hc;
          [discriminate |].
        intros H; inv_pair. repeat split; auto; discriminate.
    + intros Hcls. split.
      * intros [_ Hc]. run_goal. rewrite Hp. cbn. rewrite Hcls, Hc. eauto.
      * intros l s2. run_goal. rewrite Hp. cbn. rewrite Hcls.
        destruct (loop_ctor_outcome (env s) DefaultEventLoop) eqn:Hc;
          [discriminate |].
        intros H; inv_pair. repeat split; auto; discriminate.
  - intros Hcls. split.
    + intros [_ Hc]. run_goal. rewrite Hp. cbn. rewrite Hcls, Hc. eauto.
    + intros l s2. run_goal. rewrite Hp. cbn. rewrite Hcls.
      destruct (loop_ctor_outcome (env s) DefaultEventLoop) eqn:Hc;
        [discriminate |].
      intros H; inv_pair. repeat split; auto; discriminate.
Qed.

(** X1.  [get_policy] of every factory is free of side effects on the
    process: whatever its outcome, it leaves [self], the installed policy
    (and so the default loop) and the output as they are; a policy it
    returns is a new object that holds no loop. *)
Theorem get_policy_side_effect_free (f : LoopFactory) (s : State)
    (r : result Policy) (s' : State) :
  LoopFactory_get_policy f s = (r, s') ->
  self_system s' = self_system s /\
  self_factory s' = self_factory s /\
  _event_loop_policy s' = _event_loop_policy s /\
  default_event_loop s' = default_event_loop s /\
  printed (trace s') = printed (trace s) /\
  (forall p, r = Return p ->
     policy_id p = next_id s /\ policy_loop p = None /\
     next_id s' = S (next_id s)).
Proof.
  intros H.
  pose proof (get_policy_frame f s) as (H1 & H2 & _ & H4 & H5).
  rewrite H in *. cbn in H1, H2, H4, H5.
  unfold default_event_loop. rewrite H4.
  repeat split; auto; subst r;
    destruct (get_policy_returns f s p s' H) as (A & B & C & _); auto.
Qed.

Lemma get_policy_side_effect_free_witness :
  exists p s',
    LoopFactory_get_policy
      {| factory_id := 0; factory_class := UvloopFactory_cls |}
      (snd (EventLoopManager.setup s_linux_uvloop)) = (Return p, s') /\
    default_event_loop s'
      = Some {| loop_id := 2; loop_class := uvloop_Loop |} /\
    policy_id p = 3 /\ policy_loop p = None.
Proof.
  destruct (LoopFactory_get_policy
              {| factory_id := 0; factory_class := UvloopFactory_cls |}
              (snd (EventLoopManager.setup s_linux_uvloop)))
    as [r s'] eqn:H.
  destruct (get_policy_side_effect_free _ _ r s' H)
    as (_ & _ & _ & Hd & _ & Hn).
  vm_compute in H. inv_pair.
  eexists. eexists. split; [reflexivity |].
  split; [exact Hd |].
  destruct (Hn _ eq_refl) as (A & B & _). split; [exact A | exact B].
Defined.

(** X2.  [create_loop] of every factory only builds a loop and never
    installs it: when a policy is installed, that policy and the loop it
    holds are unchanged whatever the outcome, nothing is printed and
    [self] is untouched; a loop it returns is a new object. *)
Theorem create_loop_does_not_install (f : LoopFactory) (s : State)
    (p : Policy) (r : result Loop) (s' : State) :
  _event_loop_policy s = Some p ->
  LoopFactory_create_loop f s = (r, s') ->
  _event_loop_policy s' = Some p /\
  default_event_loop s' = default_event_loop s /\
  self_system s' = self_system s /\
  self_factory s' = self_factory s /\
  printed (trace s') = printed (trace s) /\
  (forall l, r = Return l -> next_id s <= loop_id l < next_id s').
Proof.
  intros Hp H.
  pose proof (create_loop_frame f s) as (H1 & H2 & _ & H4 & H5).
  rewrite H in *. cbn in H1, H2, H4, H5. specialize (H5 p Hp).
  unfold default_event_loop. rewrite H5, Hp.
  repeat split; auto; subst r;
    destruct (create_loop_returns f s l s' H) as (Hfresh & _); lia.
Qed.

Lemma create_loop_does_not_install_witness :
  exists l s',
    LoopFactory_create_loop
      {| factory_id := 0; factory_class := UvloopFactory_cls |}
      (snd (EventLoopManager.setup s_linux_uvloop)) = (Return l, s') /\
    loop_id l = 3 /\
    default_event_loop s'
      = Some {| loop_id := 2; loop_class := uvloop_Loop |}.
Proof.
  destruct (LoopFactory_create_loop
              {| factory_id := 0; factory_class := UvloopFactory_cls |}
              (snd (EventLoopManager.setup s_linux_uvloop)))
    as [r s'] eqn:H.
  destruct (create_loop_does_not_install _
              (snd (EventLoopManager.setup s_linux_uvloop))
              (with_loop
                 {| policy_id := 1; policy_class := uvloop_EventLoopPolicy_cls;
                    policy_loop := None |}
                 {| loop_id := 2; loop_class := uvloop_Loop |})
              r s' eq_refl H) as (_ & Hd & _).
  vm_compute in H. inv_pair.
  eexists. eexists. split; [reflexivity |].
  split; [reflexivity | exact Hd].
Defined.

(** ** Further properties of [setup] *)

Lemma setup_usable (s : State) (system : string) (f : LoopFactory) :
  constructed s system f ->
  (exists l s', EventLoopManager.setup s = (Return l, s')) <->
  backend_usable (env s) (factory_class f).
Proof.
  intros Hc. split.
  - intros (l & s' & H).
    destruct (setup_cases s system f _ _ Hc H)
      as [(e & Hr & _) | [(p & s1 & e & Hr & _)
                         | (p & s1 & l' & s2 & Hr & Hg & Hl & _)]];
      try discriminate.
    pose proof (get_policy_frame f s) as (_ & _ & He & _).
    rewrite Hg in He. cbn in He.
    pose proof (get_policy_class f s p s1 Hg) as Hcls.
    destruct (create_loop_after_install f (policy_installed p s1) p eq_refl)
      as (_ & Hinv).
    + cbn. rewrite He. exact Hcls.
    + destruct (Hinv l' s2 Hl) as (Hu & _). cbn in Hu. rewrite He in Hu.
      exact Hu.
  - intros Hu.
    destruct (get_policy_total f s (proj1 Hu)) as (p & s1 & Hg).
    pose proof (get_policy_frame f s) as (_ & _ & He & _).
    rewrite Hg in He. cbn in He.
    pose proof (get_policy_class f s p s1 Hg) as Hcls.
    destruct (create_loop_after_install f (policy_installed p s1) p eq_refl)
      as (Hex & _).
    + cbn. rewrite He. exact Hcls.
    + destruct Hex as (l & s2 & Hl); [cbn; rewrite He; exact Hu |].
      exists l, (setup_done system f p l s2).
      exact (setup_returns s system f p s1 l s2 Hc Hg Hl).
Qed.

(** X3.  On a constructed manager, [setup] returns exactly when the
    selected backend is usable in the current environment: uvloop can be
    imported if the factory is [UvloopFactory], and the loop class of the
    factory can be constructed.  Nothing else can make it raise. *)
Theorem setup_returns_iff (s : State) (system : string) (f : LoopFactory) :
  constructed s system f ->
  (exists l s', EventLoopManager.setup s = (Return l, s')) <->
  backend_usable (env s) (factory_class f).
Proof.
  intros Hc. split; intros H.
  - exact (proj1 (setup_usable s system f Hc) H).
  - exact (proj2 (setup_usable s system f Hc) H).
Qed.

Lemma setup_returns_iff_witness :
  (exists l s', EventLoopManager.setup s_linux_uvloop = (Return l, s')) /\
  ~ (exists l s', EventLoopManager.setup s_uvloop_removed = (Return l, s')).
Proof.
  split.
  - apply (setup_returns_iff s_linux_uvloop "linux"
             {| factory_id := 0; factory_class := UvloopFactory_cls |}).
    + split; reflexivity.
    + split; [intros _; reflexivity | reflexivity].
  - intros H.
    apply (setup_returns_iff s_uvloop_removed "linux"
             {| factory_id := 0; factory_class := UvloopFactory_cls |})
      in H; [| split; reflexivity].
    destruct H as [Hi _]. specialize (Hi eq_refl). discriminate.
Defined.

(** X4.  When [setup] returns, the loop it returns and the policy it
    installed belong to the same backend: the loop's class is the one the
    installed policy builds, and it is the class of the selected factory
    (for [WindowsLoopFactory], the proactor loop from version 3.8 on and
    the default loop below), whatever policy was installed before. *)
Theorem setup_backend_consistent (s : State) (system : string)
    (f : LoopFactory) (l : Loop) (s' : State) :
  constructed s system f ->
  EventLoopManager.setup s = (Return l, s') ->
  exists p,
    _event_loop_policy s' = Some (with_loop p l) /\
    loop_class l = _loop_factory (policy_class p) /\
    loop_class l
      = built_loop_class (factory_class f) (sys_version_info (env s)).
Proof.
  intros Hc H.
  destruct (setup_cases s system f _ _ Hc H)
    as [(e & Hr & _) | [(p & s1 & e & Hr & _)
                       | (p & s1 & l' & s2 & Hr & Hg & Hl & ->)]];
    try discriminate.
  inv_pair.
  pose proof (get_policy_frame f s) as (_ & _ & He & _).
  rewrite Hg in He. cbn in He.
  pose proof (get_policy_class f s p s1 Hg) as Hcls.
  destruct (create_loop_after_install f (policy_installed p s1) p eq_refl)
    as (_ & Hinv); [cbn; rewrite He; exact Hcls |].
  destruct (Hinv l' s2 Hl) as (_ & Hlc). cbn in Hlc. rewrite He in Hlc.
  exists p. split; [reflexivity |]. split; congruence.
Qed.

Lemma setup_backend_consistent_witness :
  exists l s' p,
    EventLoopManager.setup
      (snd (EventLoopManager.__init__
              (set_policy_slot
                 {| policy_id := 7; policy_class := uvloop_EventLoopPolicy_cls;
                    policy_loop := None |}
                 (fresh_process linux_without_uvloop))))
      = (Return l, s') /\
    _event_loop_policy s' = Some (with_loop p l) /\
    policy_class p = DefaultEventLoopPolicy_cls /\
    loop_class l = DefaultEventLoop.
Proof.
  destruct (EventLoopManager.setup
              (snd (EventLoopManager.__init__
                      (set_policy_slot
                         {| policy_id := 7;
                            policy_class := uvloop_EventLoopPolicy_cls;
                            policy_loop := None |}
                         (fresh_process linux_without_uvloop)))))
    as [r s'] eqn:H.
  assert (E : exists l, r = Return l)
    by (vm_compute in H; inv_pair; eexists; reflexivity).
  destruct E as (l & ->).
  assert (Hc : constructed
                 (snd (EventLoopManager.__init__
                         (set_policy_slot
                            {| policy_id := 7;
                               policy_class := uvloop_EventLoopPolicy_cls;
                               policy_loop := None |}
                            (fresh_process linux_without_uvloop))))
                 "linux"
                 {| factory_id := 0; factory_class := DefaultLoopFactory_cls |})
    by (split; reflexivity).
  destruct (setup_backend_consistent _ _ _ l s' Hc H) as (p & Hp & Hl1 & Hl2).
  exists l, s', p. split; [reflexivity |]. split; [exact Hp |].
  cbn in Hl2. rewrite Hl2 in Hl1.
  split; [destruct (policy_class p); cbn in Hl1; try discriminate; reflexivity
         | exact Hl2].
Defined.

(** What one [setup] call adds to the output, the allocation counter and
    the import count. *)
Lemma setup_summary (s : State) (system : string) (f : LoopFactory)
    (r : result Loop) (s' : State) :
  constructed s system f ->
  EventLoopManager.setup s = (r, s') ->
  printed (trace s') =
    (printed (trace s)
     ++ match r with
        | Return _ => [confirmation system f]
        | Raise _ => []
        end)%list /\
  next_id s <= next_id s' /\
  (forall l, r = Return l -> next_id s < loop_id l < next_id s') /\
  imports (trace s) <= imports (trace s') /\
  imports (trace s') <= imports (trace s) + 2 * length (method_imports f).
Proof.
  intros Hc H.
  destruct (setup_cases s system f r s' Hc H)
    as [(e & -> & Hg) | [(p & s1 & e & -> & Hg & Hl)
                        | (p & s1 & l & s2 & -> & Hg & Hl & ->)]].
  - pose proof (get_policy_frame f s) as (_ & _ & _ & _ & Hp).
    pose proof (get_policy_counts f s) as (Hi & Hn).
    rewrite Hg in *. cbn in Hp, Hi, Hn.
    rewrite Hp, app_nil_r. repeat split; try lia; discriminate.
  - pose proof (get_policy_frame f s) as (_ & _ & _ & _ & Hp).
    pose proof (get_policy_counts f s) as (Hi & Hn).
    rewrite Hg in *. cbn in Hp, Hi, Hn.
    pose proof (create_loop_frame f (policy_installed p s1))
      as (_ & _ & _ & Hp2 & _).
    pose proof (create_loop_counts f (policy_installed p s1)) as (Hi2 & Hn2).
    rewrite Hl in *. cbn in Hp2, Hi2, Hn2.
    rewrite printed_app in Hp2. cbn in Hp2.
    rewrite imports_app in Hi2. cbn in Hi2.
    rewrite Hp2, !app_nil_r, Hp. repeat split; try lia; discriminate.
  - pose proof (get_policy_frame f s) as (_ & _ & _ & _ & Hp).
    pose proof (get_policy_counts f s) as (Hi & Hn).
    destruct (get_policy_returns f s p s1 Hg) as (_ & _ & Hn1 & _).
    rewrite Hg in *. cbn in Hp, Hi, Hn.
    pose proof (create_loop_frame f (policy_installed p s1))
      as (_ & _ & _ & Hp2 & _).
    pose proof (create_loop_counts f (policy_installed p s1)) as (Hi2 & Hn2).
    destruct (create_loop_returns f _ l s2 Hl) as (Hfresh & _).
    rewrite Hl in *. cbn in Hp2, Hi2, Hn2, Hfresh.
    rewrite printed_app in Hp2. cbn in Hp2.
    rewrite imports_app in Hi2. cbn in Hi2.
    cbn. rewrite !printed_app, !imports_app. cbn.
    rewrite Hp2, !app_nil_r, Hp.
    repeat split; try lia; match goal with E : Return _ = Return _ |- _ => inversion E; subst end; lia.
Qed.

Lemma get_info_imports (s : State) (system : string) (f : LoopFactory) :
  constructed s system f ->
  imports (trace (snd (EventLoopManager.get_info s))) = S (imports (trace s)).
Proof.
  intros [Hsys Hf]. run_goal. rewrite Hsys. cbn. rewrite Hf. cbn.
  repeat break_goal; rewrite imports_app; cbn; lia.
Qed.

Lemma step_constructed (c : call) (s : State) (system : string)
    (f : LoopFactory) :
  constructed s system f -> constructed (step c s) system f.
Proof.
  intros [Hsys Hf]. destruct (step_frame c s) as [H1 H2].
  split; congruence.
Qed.

(** X5.  After construction the manager prints nothing but confirmation
    lines: over any sequence of [setup] and [get_info] calls and
    environment changes, the output grows by exactly one copy of the same
    confirmation line for each [setup] that returns.  [get_info], a failing
    [setup] and a change of environment print nothing, and the advisory
    line is never printed again. *)
Theorem output_is_confirmations (cs : list call) (s : State)
    (system : string) (f : LoopFactory) :
  constructed s system f ->
  printed (trace (run cs s)) =
    (printed (trace s)
     ++ repeat (confirmation system f) (successful_setups cs s))%list.
Proof.
  revert s. induction cs as [| c cs IH]; intros s Hc.
  - cbn. rewrite app_nil_r. reflexivity.
  - cbn [run successful_setups].
    rewrite (IH (step c s) (step_constructed c s system f Hc)).
    destruct c; cbn [step].
    + destruct (EventLoopManager.setup s) as [r s'] eqn:H.
      destruct (setup_summary s system f r s' Hc H) as (Hp & _).
      cbn [fst snd]. rewrite Hp.
      destruct r; cbn; rewrite <- app_assoc; cbn; [reflexivity |].
      reflexivity.
    + pose proof (get_info_frame s) as (_ & _ & _ & _ & _ & Hp).
      cbn in Hp. rewrite Hp.
      destruct (fst (EventLoopManager.setup s)); reflexivity.
    + cbn. destruct (fst (EventLoopManager.setup s)); reflexivity.
Qed.

Lemma output_is_confirmations_witness :
  printed
    (trace
       (run [call_get_info; call_setup; env_change linux_without_uvloop;
             call_setup; call_get_info; env_change linux_with_uvloop;
             call_setup]
          (snd (EventLoopManager.__init__
                  (fresh_process linux_with_uvloop)))))
  = [ confirmation "linux"
        {| factory_id := 0; factory_class := UvloopFactory_cls |};
      confirmation "linux"
        {| factory_id := 0; factory_class := UvloopFactory_cls |} ].
Proof.
  rewrite (output_is_confirmations _ _ "linux"
             {| factory_id := 0; factory_class := UvloopFactory_cls |}
             (conj (eq_refl : self_system s_linux_uvloop = Some "linux")
                   eq_refl)).
  reflexivity.
Defined.

Lemma run_next_id (cs : list call) (s : State) (system : string)
    (f : LoopFactory) :
  constructed s system f -> next_id s <= next_id (run cs s).
Proof.
  revert s. induction cs as [| c cs IH]; intros s Hc; cbn [run]; [lia |].
  specialize (IH (step c s) (step_constructed c s system f Hc)).
  enough (next_id s <= next_id (step c s)) by lia.
  destruct c; cbn [step].
  - destruct (EventLoopManager.setup s) as [r s'] eqn:H.
    destruct (setup_summary s system f r s' Hc H) as (_ & Hn & _). exact Hn.
  - pose proof (get_info_frame s) as (_ & _ & _ & _ & Hn & _).
    cbn in Hn. lia.
  - cbn. lia.
Qed.

(** X6.  [setup] never hands out the same loop twice: if a [setup] call
    returns [l1] and a later one, after any calls and environment changes,
    returns [l2], then [l2] is an object created after [l1], so the two
    are different loops. *)
Theorem setup_loops_distinct (s : State) (system : string) (f : LoopFactory)
    (cs : list call) (l1 l2 : Loop) (s1 s2 : State) :
  constructed s system f ->
  EventLoopManager.setup s = (Return l1, s1) ->
  EventLoopManager.setup (run cs s1) = (Return l2, s2) ->
  loop_id l1 < loop_id l2 /\ l1 <> l2.
Proof.
  intros Hc H1 H2.
  assert (Hc1 : constructed s1 system f).
  { destruct Hc as [A B].
    destruct (setup_frame_run s _ _ H1) as (A1 & B1 & _). split; congruence. }
  assert (Hc2 : constructed (run cs s1) system f).
  { destruct Hc1 as [A B]. destruct (run_frame cs s1) as [A1 B1].
    split; congruence. }
  destruct (setup_summary s system f _ _ Hc H1) as (_ & _ & F1 & _).
  destruct (setup_summary _ system f _ _ Hc2 H2) as (_ & _ & F2 & _).
  specialize (F1 l1 eq_refl). specialize (F2 l2 eq_refl).
  pose proof (run_next_id cs s1 system f Hc1) as Hn.
  assert (Hlt : loop_id l1 < loop_id l2) by lia.
  split; [exact Hlt |]. intros ->. lia.
Qed.

Lemma setup_loops_distinct_witness :
  exists l1 l2 s1 s2,
    EventLoopManager.setup s_linux_uvloop = (Return l1, s1) /\
    EventLoopManager.setup (run [call_get_info; call_setup] s1)
      = (Return l2, s2) /\
    loop_id l1 < loop_id l2 /\ l1 <> l2.
Proof.
  destruct (EventLoopManager.setup s_linux_uvloop) as [r1 s1] eqn:H1.
  assert (E1 : exists l, r1 = Return l)
    by (vm_compute in H1; inv_pair; eexists; reflexivity).
  destruct E1 as (l1 & ->).
  destruct (EventLoopManager.setup (run [call_get_info; call_setup] s1))
    as [r2 s2] eqn:H2.
  assert (E2 : exists l, r2 = Return l).
  { vm_compute in H1. inv_pair. vm_compute in H2. inv_pair.
    eexists; reflexivity. }
  destruct E2 as (l2 & ->).
  exists l1, l2, s1, s2. split; [reflexivity |]. split; [exact H2 |].
  exact (setup_loops_distinct s_linux_uvloop "linux"
           {| factory_id := 0; factory_class := UvloopFactory_cls |}
           [call_get_info; call_setup] l1 l2 s1 s2
           (conj eq_refl eq_refl) H1 H2).
Defined.

(** ** How often uvloop is imported *)

(** X7.  The constructor executes [import uvloop] exactly once when the
    lower-cased platform name is not "windows", whether the import
    succeeds, fails with an [ImportError] or makes the constructor raise,
    and not at all on "windows". *)
Theorem init_imports_once (s : State) :
  imports (trace (snd (EventLoopManager.__init__ s))) =
    imports (trace s)
    + (if String.eqb (lower (platform_system (env s))) "windows" then 0
       else 1).
Proof.
  run_goal. repeat break_goal; rewrite ?imports_app; cbn;
    rewrite ?imports_app; cbn; lia.
Qed.

(** X8.  After construction, [get_info] imports uvloop exactly once per
    call and [setup] at most twice per call; when the selected factory is
    not [UvloopFactory], [setup] never imports it, so the imports made
    over a sequence of calls are exactly those of the [get_info] calls. *)
Theorem imports_over_calls (cs : list call) (s : State) (system : string)
    (f : LoopFactory) :
  constructed s system f ->
  imports (trace s) + count_get_info cs <= imports (trace (run cs s)) /\
  imports (trace (run cs s))
    <= imports (trace s) + count_get_info cs + 2 * count_setup cs /\
  (factory_class f <> UvloopFactory_cls ->
   imports (trace (run cs s)) = imports (trace s) + count_get_info cs).
Proof.
  revert s. induction cs as [| c cs IH]; intros s Hc.
  - cbn. repeat split; lia.
  - cbn [run].
    destruct (IH (step c s) (step_constructed c s system f Hc))
      as (L & U & E).
    destruct c; cbn [step count_get_info count_setup] in *.
    + destruct (EventLoopManager.setup s) as [r s'] eqn:H.
      destruct (setup_summary s system f r s' Hc H) as (_ & _ & _ & Lo & Up).
      cbn [snd] in *.
      assert (Hlen : length (method_imports f) <= 1)
        by (unfold method_imports; destruct (factory_class f); cbn; lia).
      repeat split; try lia.
      intros Hne. specialize (E Hne).
      assert (length (method_imports f) = 0)
        by (unfold method_imports; destruct (factory_class f); cbn;
            congruence).
      lia.
    + rewrite (get_info_imports s system f Hc) in *.
      repeat split; try lia. intros Hne. specialize (E Hne). lia.
    + cbn in *. repeat split; try lia. intros Hne. exact (E Hne).
Qed.

Lemma imports_over_calls_witness :
  imports
    (trace (run [call_setup; call_get_info; call_setup; call_get_info]
              s_windows))
  = 2.
Proof.
  exact (proj2 (proj2 (imports_over_calls
                         [call_setup; call_get_info; call_setup; call_get_info]
                         s_windows "windows"
                         {| factory_id := 0;
                            factory_class := WindowsLoopFactory_cls |}
                         (conj eq_refl eq_refl)))
           ltac:(discriminate)).
Defined.

(** ** Further properties of construction and [get_info] *)

(** X10.  The checks of the module's own usage example hold for a
    [get_info] made right after construction, in the same environment: on
    "windows" the factory is ["WindowsLoopFactory"]; elsewhere it is
    ["UvloopFactory"] when ["uvloop_available"] is [True] and
    ["DefaultLoopFactory"] when it is [False]. *)
Theorem usage_example_checks (s0 s1 : State) (d : dict) (s2 : State) :
  EventLoopManager.__init__ s0 = (Return tt, s1) ->
  EventLoopManager.get_info s1 = (Return d, s2) ->
  exists system available factory,
    dict_get "system" d = Some (PyStr system) /\
    dict_get "uvloop_available" d = Some (PyBool available) /\
    dict_get "factory" d = Some (PyStr factory) /\
    (system = "windows" -> factory = "WindowsLoopFactory") /\
    (system <> "windows" -> available = true -> factory = "UvloopFactory") /\
    (system <> "windows" -> available = false ->
     factory = "DefaultLoopFactory").
Proof.
  intros Hinit H.
  destruct (String.eqb_spec (lower (platform_system (env s0))) "windows")
    as [Hw | Hw].
  - rewrite (init_windows s0 Hw) in Hinit. inv_pair.
    revert H. run_goal. intros H.
    repeat break_hyp; inv_pair; try discriminate;
      do 3 eexists; cbn; (repeat split; try reflexivity);
      intros; try reflexivity; congruence.
  - destruct (import_uvloop_outcome (env s0)) as [e |] eqn:Hi.
    + destruct (isinstance_ImportError e) eqn:He.
      * rewrite (init_default s0 e Hw Hi He) in Hinit. inv_pair.
        revert H. run_goal. rewrite Hi. cbn. rewrite He. intros H. inv_pair.
        do 3 eexists; cbn; (repeat split; try reflexivity);
          intros; try reflexivity; congruence.
      * rewrite (init_propagates s0 e Hw Hi He) in Hinit. discriminate.
    + rewrite (init_uvloop s0 Hw Hi) in Hinit. inv_pair.
      revert H. run_goal. rewrite Hi. cbn. intros H. inv_pair.
      do 3 eexists; cbn; (repeat split; try reflexivity);
        intros; try reflexivity; congruence.
Qed.

Lemma usage_example_checks_witness :
  exists d s2,
    EventLoopManager.get_info
      (snd (EventLoopManager.__init__ (fresh_process linux_without_uvloop)))
      = (Return d, s2) /\
    dict_get "uvloop_available" d = Some (PyBool false) /\
    dict_get "factory" d = Some (PyStr "DefaultLoopFactory").
Proof.
  destruct (EventLoopManager.get_info
              (snd (EventLoopManager.__init__
                      (fresh_process linux_without_uvloop))))
    as [r s2] eqn:H.
  assert (E : exists d, r = Return d /\
                dict_get "system" d = Some (PyStr "linux") /\
                dict_get "uvloop_available" d = Some (PyBool false))
    by (vm_compute in H; inv_pair; eexists; repeat split; reflexivity).
  destruct E as (d & -> & Ds & Da).
  destruct (usage_example_checks (fresh_process linux_without_uvloop)
              _ d s2 eq_refl H)
    as (y & a & fn & Hy & Ha & Hf & _ & _ & Hdef).
  exists d, s2. split; [reflexivity |]. split; [exact Da |].
  rewrite Hf. rewrite Ds in Hy. rewrite Da in Ha. inv_pair.
  rewrite Hdef; [reflexivity | discriminate | reflexivity].
Defined.

(** X11.  On a constructed manager [get_info] raises exactly when
    [import uvloop] raises an exception that is not an [ImportError], and
    then it raises that very exception: the availability check absorbs
    import errors only.  Either way the call changes nothing but the record
    of one import. *)
Theorem get_info_raises_iff (s : State) (system : string) (f : LoopFactory)
    (e : exn) :
  constructed s system f ->
  (fst (EventLoopManager.get_info s) = Raise e <->
   (import_uvloop_outcome (env s) = Some e /\
    isinstance_ImportError e = false)) /\
  snd (EventLoopManager.get_info s) = log EvImportUvloop s.
Proof.
  intros [Hsys Hf]. run_goal. rewrite Hsys. cbn. rewrite Hf. cbn.
  destruct (import_uvloop_outcome (env s)) as [x |]; cbn.
  - destruct (isinstance_ImportError x) eqn:Hx; cbn.
    + split; [| reflexivity]. split; [discriminate |].
      intros [A B]. inv_pair. congruence.
    + split; [| reflexivity]. split.
      * intros H. inv_pair. auto.
      * intros [A B]. inv_pair. reflexivity.
  - split; [| reflexivity]. split; [discriminate |].
    intros [A _]. discriminate.
Qed.

Lemma get_info_raises_iff_witness :
  fst (EventLoopManager.get_info
         (run [env_change linux_broken_uvloop] s_linux_uvloop))
  = Raise AttributeError.
Proof.
  apply (proj1 (get_info_raises_iff
                  (run [env_change linux_broken_uvloop] s_linux_uvloop)
                  "linux"
                  {| factory_id := 0; factory_class := UvloopFactory_cls |}
                  AttributeError (conj eq_refl eq_refl))).
  split; reflexivity.
Defined.

(** X12.  [get_info] has two cached and two live fields.  After any change
    of environment, a dictionary it returns has exactly the keys
    ["system"], ["factory"], ["uvloop_available"], ["python_version"], in
    this order; the first two still hold what the constructor stored,
    while the last two describe the new environment. *)
Theorem get_info_cached_and_live (s : State) (system : string)
    (f : LoopFactory) (e : Env) (d : dict) (s' : State) :
  constructed s system f ->
  EventLoopManager.get_info (set_env e s) = (Return d, s') ->
  map fst d = ["system"; "factory"; "uvloop_available"; "python_version"] /\
  dict_get "system" d = Some (PyStr system) /\
  dict_get "factory" d = Some (PyStr (__name__ (factory_class f))) /\
  dict_get "uvloop_available" d = Some (PyBool (importable e)) /\
  dict_get "python_version" d = Some (PyStr (platform_python_version e)).
Proof.
  intros [Hsys Hf]. unfold importable. run_goal. rewrite Hsys. cbn.
  rewrite Hf. cbn.
  destruct (import_uvloop_outcome e) as [x |]; cbn.
  - destruct (isinstance_ImportError x); cbn; intros H; inv_pair;
      try discriminate; repeat split; reflexivity.
  - intros H; inv_pair. repeat split; reflexivity.
Qed.

Lemma get_info_cached_and_live_witness :
  exists d s',
    EventLoopManager.get_info (set_env windows_py37 s_linux_uvloop)
      = (Return d, s') /\
    dict_get "system" d = Some (PyStr "linux") /\
    dict_get "factory" d = Some (PyStr "UvloopFactory") /\
    dict_get "uvloop_available" d = Some (PyBool false) /\
    dict_get "python_version" d = Some (PyStr "3.7.9").
Proof.
  destruct (EventLoopManager.get_info (set_env windows_py37 s_linux_uvloop))
    as [r s'] eqn:H.
  assert (E : exists d, r = Return d)
    by (vm_compute in H; inv_pair; eexists; reflexivity).
  destruct E as (d & ->).
  destruct (get_info_cached_and_live s_linux_uvloop "linux"
              {| factory_id := 0; factory_class := UvloopFactory_cls |}
              windows_py37 d s' (conj eq_refl eq_refl) H)
    as (_ & A & B & C & D).
  exists d, s'. split; [reflexivity |]. repeat split; assumption.
Defined.


(** ** The demonstration *)

Arguments line_configuration : simpl never.
Arguments line_error : simpl never.
Arguments line_failed : simpl never.
Arguments line_result : simpl never.
Arguments line_starting : simpl never.
Arguments line_completed : simpl never.
Arguments demo_result : simpl never.

(** [create_demo_task], stage by stage. *)
Lemma create_demo_task_run (b : Builtins) (w : DemoState) :
  create_demo_task b w =
    match EventLoopManager_new (process w) with
    | (Raise e, s1) => (Raise e, with_process s1 w)
    | (Return _, s1) =>
        match EventLoopManager.get_info s1 with
        | (Raise e, s2) => (Raise e, with_process s2 w)
        | (Return info, s2) =>
            match EventLoopManager.setup
                    (log (EvPrint (line_configuration b info)) s2) with
            | (Raise e, s4) => (Raise e, with_process s4 w)
            | (Return l, s4) => run_and_close b l s4 w
            end
        end
    end.
Proof.
  unfold create_demo_task, dbind at 1, lift at 1.
  destruct (EventLoopManager_new (process w)) as [[[] | e] s1];
    [| reflexivity].
  unfold dbind at 1, lift at 1. cbn [process sleep_outcome closed].
  destruct (EventLoopManager.get_info s1) as [[info | e] s2];
    [| reflexivity].
  unfold dbind at 1, lift at 1, print at 1.
  cbn [process sleep_outcome closed].
  unfold dbind at 1, lift at 1. cbn [process sleep_outcome closed].
  destruct (EventLoopManager.setup
              (log (EvPrint (line_configuration b info)) s2))
    as [[l | e] s4]; [| reflexivity].
  unfold run_and_close, try_finally, try_except_Exception,
    Loop_run_until_complete, Loop_close, demo_coroutine, asyncio_sleep,
    dbind, dret, draise, lift, print, is_closed, with_closed.
  cbn [process sleep_outcome closed].
  destruct (existsb _ (closed w)); [reflexivity |].
  destruct (sleep_outcome w) as [e |]; [| reflexivity].
  cbn. destruct (isinstance_Exception e); reflexivity.
Qed.

(** [main], by outcome of [create_demo_task]. *)
Lemma main_run (b : Builtins) (w : DemoState) :
  main b w =
    match create_demo_task b w with
    | (Return result, w') =>
        (main_returns,
         with_process (log (EvPrint (line_result result)) (process w')) w')
    | (Raise e, w') =>
        if isinstance_Exception e then
          (Raise (SystemExit 1),
           with_process (log (EvPrint (line_failed b e)) (process w')) w')
        else (Raise e, w')
    end.
Proof.
  unfold main, try_except_Exception, dbind at 1.
  destruct (create_demo_task b w) as [[x | e] w']; [reflexivity |].
  destruct (isinstance_Exception e); reflexivity.
Qed.

(** The instance a returning constructor leaves behind. *)
Lemma new_selected (s s1 : State) :
  EventLoopManager_new s = (Return tt, s1) ->
  constructed s1 (lower (platform_system (env s)))
    {| factory_id := next_id s; factory_class := selected_class (env s) |} /\
  env s1 = env s /\
  next_id s1 = S (next_id s) /\
  _event_loop_policy s1 = _event_loop_policy s /\
  printed (trace s1) = (printed (trace s) ++ advisory_lines (env s))%list.
Proof.
  unfold EventLoopManager_new, selected_class, advisory_lines, importable.
  intros H.
  destruct (String.eqb_spec (lower (platform_system (env s))) "windows")
    as [Hw | Hw].
  - rewrite (init_windows (new_instance s) Hw) in H. inv_pair. cbn.
    rewrite Hw, app_nil_r. repeat split; reflexivity.
  - destruct (import_uvloop_outcome (env s)) as [e |] eqn:Hi.
    + destruct (isinstance_ImportError e) eqn:He.
      * rewrite (init_default (new_instance s) e Hw Hi He) in H. inv_pair.
        cbn. rewrite !printed_app. cbn. rewrite app_nil_r.
        repeat split; reflexivity.
      * rewrite (init_propagates (new_instance s) e Hw Hi He) in H.
        discriminate.
    + rewrite (init_uvloop (new_instance s) Hw Hi) in H. inv_pair.
      cbn. rewrite printed_app. cbn. rewrite !app_nil_r.
      repeat split; reflexivity.
Qed.

Lemma new_returns (s : State) :
  probe_answers (env s) ->
  exists s1, EventLoopManager_new s = (Return tt, s1).
Proof.
  unfold EventLoopManager_new, probe_answers. intros Hp.
  destruct (String.eqb_spec (lower (platform_system (env s))) "windows")
    as [Hw | Hw].
  - rewrite (init_windows (new_instance s) Hw). eauto.
  - destruct (import_uvloop_outcome (env s)) as [e |] eqn:Hi.
    + rewrite (init_default (new_instance s) e Hw Hi Hp). eauto.
    + rewrite (init_uvloop (new_instance s) Hw Hi). eauto.
Qed.

(** A constructor that raises has printed nothing and installed nothing. *)
Lemma new_raises (s : State) (e : exn) (s1 : State) :
  EventLoopManager_new s = (Raise e, s1) ->
  import_uvloop_outcome (env s) = Some e /\
  isinstance_ImportError e = false /\
  printed (trace s1) = printed (trace s) /\
  _event_loop_policy s1 = _event_loop_policy s.
Proof.
  unfold EventLoopManager_new. intros H.
  destruct (String.eqb_spec (lower (platform_system (env s))) "windows")
    as [Hw | Hw].
  - rewrite (init_windows (new_instance s) Hw) in H. discriminate.
  - destruct (import_uvloop_outcome (env s)) as [x |] eqn:Hi.
    + destruct (isinstance_ImportError x) eqn:He.
      * rewrite (init_default (new_instance s) x Hw Hi He) in H.
        discriminate.
      * rewrite (init_propagates (new_instance s) x Hw Hi He) in H.
        inv_pair. cbn. rewrite printed_app, app_nil_r. auto.
    + rewrite (init_uvloop (new_instance s) Hw Hi) in H. discriminate.
Qed.

(** [get_info] on a constructed manager, by outcome of the import. *)
Lemma get_info_answers (s : State) (system : string) (f : LoopFactory) :
  constructed s system f ->
  probe_answers (env s) ->
  EventLoopManager.get_info s =
    (Return [ ("system", PyStr system);
              ("factory", PyStr (__name__ (factory_class f)));
              ("uvloop_available", PyBool (importable (env s)));
              ("python_version", PyStr (platform_python_version (env s))) ],
     log EvImportUvloop s).
Proof.
  intros Hc Hp. apply get_info_returns; [exact Hc |].
  unfold probe_answers, importable in *.
  destruct (import_uvloop_outcome (env s)); auto.
Qed.

Lemma get_info_refuses (s : State) (system : string) (f : LoopFactory)
    (r : result dict) (s' : State) :
  constructed s system f ->
  EventLoopManager.get_info s = (r, s') ->
  match r with
  | Return _ => probe_answers (env s)
  | Raise e =>
      import_uvloop_outcome (env s) = Some e /\
      isinstance_ImportError e = false
  end.
Proof.
  intros [Hsys Hf]. unfold probe_answers. run_goal.
  rewrite Hsys. cbn. rewrite Hf. cbn.
  destruct (import_uvloop_outcome (env s)) as [x |]; cbn.
  - destruct (isinstance_ImportError x) eqn:Hx; cbn; intros H; inv_pair; auto.
  - intros H; inv_pair. exact I.
Qed.

Lemma fresh_not_closed (w : DemoState) (l : Loop) :
  closed_are_old w ->
  next_id (process w) <= loop_id l ->
  is_closed l w = false.
Proof.
  intros Hold Hl. unfold is_closed.
  destruct (existsb _ (closed w)) eqn:E; [| reflexivity].
  apply existsb_exists in E. destruct E as (c & Hin & Heq).
  apply Nat.eqb_eq in Heq. specialize (Hold c Hin). lia.
Qed.

(** When the environment answers the probe and the selected backend is
    usable, [create_demo_task] gets as far as running the coroutine. *)
Lemma demo_prelude (b : Builtins) (w : DemoState) :
  closed_are_old w ->
  probe_answers (env (process w)) ->
  backend_usable (env (process w)) (selected_class (env (process w))) ->
  exists l s4,
    create_demo_task b w = run_and_close b l s4 w /\
    is_closed l w = false /\
    default_event_loop s4 = Some l /\
    printed (trace s4) =
      (printed (trace (process w)) ++ advisory_lines (env (process w))
       ++ [ line_configuration b (expected_info (env (process w)));
            confirmation (lower (platform_system (env (process w))))
              {| factory_id := next_id (process w);
                 factory_class := selected_class (env (process w)) |} ])%list.
Proof.
  intros Hold Hp Hu. rewrite create_demo_task_run.
  destruct (new_returns (process w) Hp) as (s1 & H1). rewrite H1.
  destruct (new_selected _ _ H1) as (Hc1 & He1 & Hn1 & _ & Hpr1).
  assert (Hp1 : probe_answers (env s1)) by (rewrite He1; exact Hp).
  rewrite (get_info_answers s1 _ _ Hc1 Hp1). cbn [factory_class].
  rewrite He1. fold (expected_info (env (process w))).
  set (cfg := line_configuration b (expected_info (env (process w)))).
  set (s3 := log (EvPrint cfg) (log EvImportUvloop s1)).
  assert (Hc3 : constructed s3 (lower (platform_system (env (process w))))
                  {| factory_id := next_id (process w);
                     factory_class := selected_class (env (process w)) |})
    by exact Hc1.
  assert (He3 : env s3 = env (process w)) by exact He1.
  destruct (proj2 (setup_usable s3 _ _ Hc3)) as (l & s4 & H4).
  { rewrite He3. exact Hu. }
  rewrite H4.
  destruct (setup_summary s3 _ _ _ _ Hc3 H4) as (Hpr4 & _ & Hfresh & _).
  specialize (Hfresh l eq_refl).
  exists l, s4. split; [reflexivity |]. split.
  - apply fresh_not_closed; [exact Hold |].
    assert (next_id s3 = next_id s1) by reflexivity. lia.
  - split.
    + destruct (setup_cases s3 _ _ _ _ Hc3 H4)
        as [(e & Hr & _) | [(p & s1' & e & Hr & _)
                           | (p & s1' & l' & s2 & Hr & _ & _ & ->)]];
        try discriminate.
      inv_pair. reflexivity.
    + rewrite Hpr4. subst s3. cbn [trace log].
      rewrite !printed_app. cbn. rewrite Hpr1, !app_nil_r.
      rewrite <- !app_assoc. reflexivity.
Qed.



(** When [create_demo_task] returns, every stage went through. *)
Lemma demo_returns_inv (b : Builtins) (w : DemoState) (x : string)
    (w' : DemoState) :
  create_demo_task b w = (Return x, w') ->
  probe_answers (env (process w)) /\
  backend_usable (env (process w)) (selected_class (env (process w))) /\
  sleep_outcome w = None /\
  x = demo_result.
Proof.
  rewrite create_demo_task_run.
  destruct (EventLoopManager_new (process w)) as [[[] | e] s1] eqn:H1;
    [| discriminate].
  destruct (new_selected _ _ H1) as (Hc1 & He1 & _).
  destruct (EventLoopManager.get_info s1) as [[info | e] s2] eqn:H2;
    [| discriminate].
  pose proof (get_info_refuses s1 _ _ _ _ Hc1 H2) as Hp. cbn in Hp.
  rewrite He1 in Hp.
  pose proof (get_info_frame s1) as (A & B & C & _).
  rewrite H2 in A, B, C. cbn in A, B, C.
  set (s3 := log (EvPrint (line_configuration b info)) s2).
  assert (Hc3 : constructed s3 (lower (platform_system (env (process w))))
                  {| factory_id := next_id (process w);
                     factory_class := selected_class (env (process w)) |}).
  { destruct Hc1 as [C1 C2]. split; cbn; congruence. }
  assert (He3 : env s3 = env (process w)) by (cbn; congruence).
  destruct (EventLoopManager.setup s3) as [[l | e] s4] eqn:H4;
    [| discriminate].
  pose proof (proj1 (setup_usable s3 _ _ Hc3)
                (ex_intro _ l (ex_intro _ s4 H4))) as Hu.
  rewrite He3 in Hu. cbn [factory_class] in Hu.
  unfold run_and_close.
  destruct (is_closed l w); [discriminate |].
  destruct (sleep_outcome w); [discriminate |].
  intros H. inv_pair. auto.
Qed.

(** X14.  Started where all closed loops are old objects, [main] returns
    exactly when importing uvloop succeeds or fails with an [ImportError],
    the backend selected for the platform is usable, and the awaited sleep
    does not raise. *)
Theorem main_returns_iff (b : Builtins) (w : DemoState) :
  closed_are_old w ->
  fst (main b w) = main_returns <->
  probe_answers (env (process w)) /\
  backend_usable (env (process w)) (selected_class (env (process w))) /\
  sleep_outcome w = None.
Proof.
  intros Hold. rewrite main_run. split.
  - destruct (create_demo_task b w) as [[x | e] w'] eqn:H; cbn.
    + intros _. destruct (demo_returns_inv b w x w' H) as (A & B & C & _).
      auto.
    + destruct (isinstance_Exception e); discriminate.
  - intros (Hp & Hu & Hs).
    destruct (demo_prelude b w Hold Hp Hu) as (l & s4 & H & Hcl & _).
    rewrite H. unfold run_and_close. rewrite Hcl, Hs. reflexivity.
Qed.

Lemma main_returns_iff_witness :
  closed_are_old (fresh_demo windows_with_uvloop None) /\
  fst (main sample_builtins (fresh_demo windows_with_uvloop None))
    = main_returns /\
  fst (main sample_builtins
         (fresh_demo
            (mk_env "Windows" py312 "3.12.4" (Some AttributeError)
               no_ctor_failure) None))
    <> main_returns.
Proof.
  assert (Hold : forall e, closed_are_old (fresh_demo e None))
    by (intros e l []).
  split; [apply Hold |]. split.
  - apply (proj2 (main_returns_iff sample_builtins
                    (fresh_demo windows_with_uvloop None) (Hold _))).
    split; [exact I |]. split; [| reflexivity].
    split; [discriminate | reflexivity].
  - intros H.
    apply (proj1 (main_returns_iff sample_builtins _ (Hold _))) in H.
    destruct H as (Hp & _). cbn in Hp. discriminate.
Defined.

(** X15.  The run shown in the docstring of [main].  When the probe is
    answered, the selected backend is usable and the sleep does not raise,
    [main] returns, and what it adds to the output is, in this order: the
    advisory line if the constructor fell back to the default factory, the
    configuration line, the confirmation line, the two lines of the
    coroutine and the result line.  The loop that was configured is the
    only one closed. *)
Theorem main_success_output (b : Builtins) (w : DemoState) :
  closed_are_old w ->
  probe_answers (env (process w)) ->
  backend_usable (env (process w)) (selected_class (env (process w))) ->
  sleep_outcome w = None ->
  exists l w',
    main b w = (main_returns, w') /\
    printed (trace (process w')) =
      (printed (trace (process w)) ++ advisory_lines (env (process w))
       ++ [ line_configuration b (expected_info (env (process w)));
            confirmation (lower (platform_system (env (process w))))
              {| factory_id := next_id (process w);
                 factory_class := selected_class (env (process w)) |};
            line_starting;
            line_completed;
            line_result demo_result ])%list /\
    closed w' = (closed w ++ [l])%list /\
    default_event_loop (process w') = Some l.
Proof.
  intros Hold Hp Hu Hs.
  destruct (demo_prelude b w Hold Hp Hu) as (l & s4 & H & Hcl & Hd & Hpr).
  rewrite main_run, H. unfold run_and_close. rewrite Hcl, Hs.
  exists l. eexists. split; [reflexivity |]. cbn.
  rewrite !printed_app. cbn. rewrite Hpr, <- !app_assoc. cbn.
  repeat split; try reflexivity; exact Hd.
Qed.

Lemma main_success_output_witness :
  exists w',
    main sample_builtins (fresh_demo linux_without_uvloop None)
      = (main_returns, w') /\
    printed (trace (process w')) =
      [ advisory;
        line_configuration sample_builtins (expected_info linux_without_uvloop);
        confirmation "linux"
          {| factory_id := 0; factory_class := DefaultLoopFactory_cls |};
        line_starting;
        line_completed;
        line_result demo_result ].
Proof.
  destruct (main_success_output sample_builtins
              (fresh_demo linux_without_uvloop None))
    as (l & w' & H & Hpr & _).
  - intros l [].
  - reflexivity.
  - split; [discriminate | reflexivity].
  - reflexivity.
  - exists w'. split; [exact H | exact Hpr].
Defined.



(** X17.  A uvloop whose import raises something other than an
    [ImportError] stops the demonstration before anything is configured,
    on every platform: on "windows" the constructor succeeds but
    [get_info] raises, elsewhere the constructor raises.  No loop is closed
    and the installed policy is left as it was.  If the exception is an
    [Exception], [main] prints only its failure line and exits with status
    1; otherwise [main] prints nothing and raises that exception. *)
Theorem main_broken_uvloop (b : Builtins) (w : DemoState) (e : exn) :
  import_uvloop_outcome (env (process w)) = Some e ->
  isinstance_ImportError e = false ->
  exists w',
    main b w
      = (Raise (if isinstance_Exception e then SystemExit 1 else e), w') /\
    printed (trace (process w')) =
      (printed (trace (process w))
       ++ (if isinstance_Exception e then [line_failed b e] else []))%list /\
    closed w' = closed w /\
    _event_loop_policy (process w') = _event_loop_policy (process w).
Proof.
  intros Hi He. rewrite main_run, create_demo_task_run.
  destruct (EventLoopManager_new (process w)) as [[[] | x] s1] eqn:H1.
  - destruct (new_selected _ _ H1) as (Hc1 & He1 & _ & Hpol & Hpr1).
    assert (Hadv : advisory_lines (env (process w)) = []).
    { unfold advisory_lines.
      destruct (String.eqb_spec (lower (platform_system (env (process w))))
                  "windows") as [Hw | Hw]; [reflexivity |].
      unfold EventLoopManager_new in H1.
      rewrite (init_propagates (new_instance (process w)) e Hw Hi He) in H1.
      discriminate. }
    rewrite Hadv, app_nil_r in Hpr1.
    destruct (EventLoopManager.get_info s1) as [[info | y] s2] eqn:H2.
    + pose proof (get_info_refuses s1 _ _ _ _ Hc1 H2) as Hp. cbn in Hp.
      unfold probe_answers in Hp. rewrite He1, Hi in Hp. congruence.
    + pose proof (get_info_refuses s1 _ _ _ _ Hc1 H2) as (Hy & _).
      rewrite He1, Hi in Hy. assert (y = e) by congruence. subst y.
      pose proof (get_info_frame s1) as (_ & _ & _ & Hp2 & _ & Hpr2).
      rewrite H2 in Hp2, Hpr2. cbn in Hp2, Hpr2.
      destruct (isinstance_Exception e).
      * eexists. split; [reflexivity |]. cbn.
        rewrite printed_app. cbn. repeat split; congruence.
      * eexists. split; [reflexivity |]. cbn.
        rewrite app_nil_r. repeat split; congruence.
  - destruct (new_raises _ _ _ H1) as (Hx & _ & Hpr & Hpol).
    rewrite Hi in Hx. assert (x = e) by congruence. subst x.
    destruct (isinstance_Exception e).
    + eexists. split; [reflexivity |]. cbn.
      rewrite printed_app. cbn. repeat split; congruence.
    + eexists. split; [reflexivity |]. cbn.
      rewrite app_nil_r. repeat split; congruence.
Qed.

Lemma main_broken_uvloop_witness :
  (exists w',
     main sample_builtins
       (fresh_demo
          (mk_env "Windows" py312 "3.12.4" (Some AttributeError)
             no_ctor_failure) None)
       = (Raise (SystemExit 1), w') /\
     printed (trace (process w'))
       = [line_failed sample_builtins AttributeError] /\
     closed w' = []) /\
  (exists w',
     main sample_builtins
       (fresh_demo
          (mk_env "Linux" py312 "3.12.4" (Some KeyboardInterrupt)
             no_ctor_failure) None)
       = (Raise KeyboardInterrupt, w') /\
     printed (trace (process w')) = [] /\
     closed w' = []).
Proof.
  split.
  - destruct (main_broken_uvloop sample_builtins
                (fresh_demo
                   (mk_env "Windows" py312 "3.12.4" (Some AttributeError)
                      no_ctor_failure) None)
                AttributeError eq_refl eq_refl) as (w' & H & Hpr & Hc & _).
    exists w'. split; [exact H |]. split; [exact Hpr | exact Hc].
  - destruct (main_broken_uvloop sample_builtins
                (fresh_demo
                   (mk_env "Linux" py312 "3.12.4" (Some KeyboardInterrupt)
                      no_ctor_failure) None)
                KeyboardInterrupt eq_refl eq_refl) as (w' & H & Hpr & Hc & _).
    exists w'. split; [exact H |]. split; [exact Hpr | exact Hc].
Defined.
